(** * Build action of the Nest CLI: embedding and verified properties

    Source: [src/actions/build.action.ts], class [BuildAction]
    ([handle], [runBuild], [getWebpackConfigFactoryByPath]).

    The action is effectful TypeScript: it calls collaborators (configuration
    loader, tsconfig provider, workspace utilities, assets manager, the three
    compilers, Node's [require] and [console]) and it may throw.  It is
    embedded as a computation that yields the trace of collaborator calls it
    made, in order, together with its outcome (a returned value or a thrown
    exception).  [await] points are sequential, so an awaited call is modelled
    as a call that returns or throws. *)

From Stdlib Require Import List String Ascii Bool ZArith.
Import ListNotations.
Local Open Scope string_scope.
Set Warnings "-register-all".

(** ** JavaScript run-time values *)

Module Js.

(** The values that flow through the action at run time: option values coming
    from the command line, and the configuration document (parsed JSON).
    Numbers are restricted to integers; arrays and functions are not needed by
    the action and are left out. *)
Inductive JsValue : Type :=
| JUndefined
| JNull
| JBool (b : bool)
| JNum (n : Z)
| JStr (s : string)
| JObj (fields : list (string * JsValue)).

(** [!!v] *)
Definition truthy (v : JsValue) : bool :=
  match v with
  | JUndefined | JNull => false
  | JBool b => b
  | JNum n => negb (n =? 0)%Z
  | JStr s => negb (s =? EmptyString)
  | JObj _ => true
  end.

(** [v === undefined] *)
Definition isUndefined (v : JsValue) : bool :=
  match v with JUndefined => true | _ => false end.

(** [a === b].  Objects compare by reference in JavaScript; two object values
    of this model are never taken to be the same reference. *)
Definition strictEq (a b : JsValue) : bool :=
  match a, b with
  | JUndefined, JUndefined => true
  | JNull, JNull => true
  | JBool x, JBool y => Bool.eqb x y
  | JNum x, JNum y => (x =? y)%Z
  | JStr x, JStr y => (x =? y)
  | _, _ => false
  end.

(** Whatever a [throw] can carry: an instance of [Error] (with its name and
    message), or any other value. *)
Inductive Exception : Type :=
| ErrorInstance (name message : string)
| ThrownValue (v : JsValue).

Inductive Outcome (A : Type) : Type :=
| Return (a : A)
| Throw (e : Exception).
Arguments Return {A} a.
Arguments Throw {A} e.

Definition describe (v : JsValue) : string :=
  match v with
  | JUndefined => "undefined"
  | JNull => "null"
  | _ => "value"
  end.

(** The [TypeError] raised by reading property [p] of [undefined] or [null]. *)
Definition typeErrorRead (p : string) (base : JsValue) : Exception :=
  ErrorInstance "TypeError"
    ("Cannot read property '" ++ p ++ "' of " ++ describe base).

(** The [TypeError] raised by [path.join] on an argument that is no string. *)
Definition typeErrorPathArg : Exception :=
  ErrorInstance "TypeError" "The 'path' argument must be of type string".

(** The [TypeError] raised by destructuring [undefined] or [null]. *)
Definition typeErrorDestructure (base : JsValue) : Exception :=
  ErrorInstance "TypeError"
    ("Cannot destructure '" ++ describe base ++ "' as it is " ++ describe base).

Fixpoint lookupField (k : string) (fields : list (string * JsValue)) : option JsValue :=
  match fields with
  | [] => None
  | (k', v) :: rest => if k' =? k then Some v else lookupField k rest
  end.

(** [v.p] for a property name [p] that no built-in prototype defines (the
    action reads [value], [compilerOptions] and [webpackConfigPath]). *)
Definition getProp (v : JsValue) (p : string) : Outcome JsValue :=
  match v with
  | JUndefined | JNull => Throw (typeErrorRead p v)
  | JObj fields =>
      match lookupField p fields with
      | Some x => Return x
      | None => Return JUndefined
      end
  | _ => Return JUndefined
  end.

(** [a || b] on an optional string: [undefined] and the empty string are
    falsy. *)
Definition orDefault (a : option string) (b : string) : string :=
  match a with
  | Some s => if s =? EmptyString then b else s
  | None => b
  end.

End Js.
Export Js.

(** ** Data of the action *)

(** [Input] of [../commands]: one parsed command-line argument or flag. *)
Record Input : Type := mkInput { name : string; value : JsValue }.

(** The part of the tsconfig provider's answer that the action reads:
    [options.outDir], an optional string. *)
Record TsConfig : Type := mkTsConfig { outDir : option string }.

(** The [onSuccess] callback is only passed on; it is identified by a tag. *)
Inductive Callback : Type := callback (id : nat).

(** What [require] yields for a webpack configuration file: a configuration
    object, or a function from a base configuration to a configuration. *)
Inductive WebpackConfigFactoryOrConfig : Type :=
| WebpackConfig (c : JsValue)
| WebpackFactory (f : JsValue -> Outcome JsValue).

(** Calls to collaborators, as they appear in the trace. *)
Inductive Event : Type :=
| LoaderLoad (configFileName : JsValue)
| GetByConfigFilename (pathToTsconfig : JsValue)
| DeleteOutDirIfEnabled (configuration appName : JsValue) (dir : string)
| CopyAssets (configuration appName : JsValue) (dir : string)
| RequireFile (pathToWebpackFile : string)
| WebpackCompilerRun (configuration : JsValue)
    (webpackConfigFactoryOrConfig : WebpackConfigFactoryOrConfig)
    (pathToTsconfig appName : JsValue) (isDebugEnabled watchMode : bool)
    (onSuccess : option Callback)
| WatchCompilerRun (configuration pathToTsconfig appName : JsValue)
    (onSuccess : option Callback)
| CompilerRun (configuration pathToTsconfig appName : JsValue)
    (onSuccess : option Callback)
| ConsoleLog (text : string)
| ConsoleError (text : string).

(** ** Computations: a trace of calls and an outcome *)

Module Effect.

Definition M (A : Type) : Type := (list Event * Outcome A)%type.

Definition ret {A} (a : A) : M A := ([], Return a).
Definition throw {A} (e : Exception) : M A := ([], Throw e).

Definition bind {A B} (m : M A) (k : A -> M B) : M B :=
  match m with
  | (t, Return a) => let (t', r) := k a in ((t ++ t')%list, r)
  | (t, Throw e) => (t, Throw e)
  end.

(** A pure step that may throw. *)
Definition lift {A} (o : Outcome A) : M A := ([], o).

(** A call to a collaborator: it is recorded, then it returns or throws. *)
Definition call {A} (ev : Event) (o : Outcome A) : M A := ([ev], o).

(** [try { m } catch (err) { h err }] *)
Definition tryCatch {A} (m : M A) (h : Exception -> M A) : M A :=
  match m with
  | (t, Return a) => (t, Return a)
  | (t, Throw e) => let (t', r) := h e in ((t ++ t')%list, r)
  end.

Definition trace {A} (m : M A) : list Event := fst m.
Definition outcome {A} (m : M A) : Outcome A := snd m.

End Effect.
Export Effect.

Declare Scope effect_scope.
Delimit Scope effect_scope with effect.
Notation "x <- m ;; k" := (bind m (fun x => k))
  (at level 61, m at next level, right associativity) : effect_scope.
Notation "m ;;; k" := (bind m (fun _ => k))
  (at level 61, right associativity) : effect_scope.

(** ** The value resolver *)

Module ValueResolver.

(** Cuts a dotted path into its segments: [a.b.c] gives [a], [b], [c]. *)
Fixpoint splitAcc (acc : string) (s : string) : list string :=
  match s with
  | EmptyString => [acc]
  | String c rest =>
      if Ascii.eqb c "."%char
      then acc :: splitAcc EmptyString rest
      else splitAcc (acc ++ String c EmptyString) rest
  end.

Definition splitPath (propertyPath : string) : list string :=
  splitAcc EmptyString propertyPath.

(** The value found by walking the segments down a document; [undefined] as
    soon as a level is absent, never an error. *)
Fixpoint getValueOfSegments (doc : JsValue) (segments : list string) : JsValue :=
  match segments with
  | [] => doc
  | k :: rest =>
      match doc with
      | JObj fields =>
          match lookupField k fields with
          | Some v => getValueOfSegments v rest
          | None => JUndefined
          end
      | _ => JUndefined
      end
  end.

Definition getValueOfPath (configuration : JsValue) (propertyPath : string) : JsValue :=
  getValueOfSegments configuration (splitPath propertyPath).

(** An option value that is unset: [undefined] or [null]. *)
Definition isUnset (v : JsValue) : bool :=
  match v with JUndefined | JNull => true | _ => false end.

(** The section of the configuration document that holds the overrides per
    application, keyed by application name. *)
Definition perApplicationSection : string := "projects".

(** Modelled from the spec: [getValueOrDefault] of
    [../lib/compiler/helpers/get-value-or-default], which the build action
    imports and whose file is not part of the sources at hand.  The spec gives
    four sources, highest first: the command-line option of the given name,
    if present in the options list and set; the override of the application
    at the dotted path; the global value at the dotted path; the fallback
    given by the caller.  It never throws.  The option is looked up by name
    the way the action itself looks options up ([options.find] on the name);
    its value is unset when it is [undefined] or [null], and an empty string
    is a set value.  An application name that is no string has no
    override. *)
Definition getValueOrDefault (configuration : JsValue) (propertyPath : string)
    (appName : JsValue) (key : string) (options : list Input)
    (defaultValue : JsValue) : JsValue :=
  let item := find (fun option => name option =? key) options in
  let origValue := match item with Some o => value o | None => JUndefined end in
  if negb (isUnset origValue) then origValue
  else
    let perAppValue :=
      match appName with
      | JStr app =>
          getValueOfSegments configuration
            (perApplicationSection :: app :: splitPath propertyPath)
      | _ => JUndefined
      end in
    if negb (isUndefined perAppValue) then perAppValue
    else
      let globalValue := getValueOfPath configuration propertyPath in
      if negb (isUndefined globalValue) then globalValue
      else defaultValue.

End ValueResolver.

(** ** The collaborators of the action *)

(** Everything the action calls and does not define.  A call that the action
    makes at most once per run is given by its answer (a value or a thrown
    exception) as a function of its arguments. *)
Record Env : Type := mkEnv {
  (** [process.cwd()] *)
  cwd : string;
  (** [path.join] on two strings *)
  join : string -> string -> string;
  (** Node's [require] on a path *)
  require : string -> Outcome WebpackConfigFactoryOrConfig;
  (** [defaultOutDir] of [../lib/configuration/defaults] *)
  defaultOutDir : string;
  (** [ERROR_PREFIX] of [../lib/ui] *)
  ERROR_PREFIX : string;
  (** [chalk.red] applied to a thrown value, as text *)
  chalk_red : JsValue -> string;
  (** [getValueOrDefault(configuration, propertyPath, appName, key, options)] *)
  getValueOrDefault : JsValue -> string -> JsValue -> string -> list Input -> JsValue;
  (** [loader.load(configFileName)] *)
  loader_load : JsValue -> Outcome JsValue;
  (** [tsConfigProvider.getByConfigFilename(pathToTsconfig)] *)
  tsConfigProvider_getByConfigFilename : JsValue -> Outcome TsConfig;
  (** [workspaceUtils.deleteOutDirIfEnabled(configuration, appName, outDir)] *)
  workspaceUtils_deleteOutDirIfEnabled : JsValue -> JsValue -> string -> Outcome unit;
  (** [assetsManager.copyAssets(configuration, appName, outDir)] *)
  assetsManager_copyAssets : JsValue -> JsValue -> string -> Outcome unit;
  (** [webpackCompiler.run(...)] *)
  webpackCompiler_run :
    JsValue -> WebpackConfigFactoryOrConfig -> JsValue -> JsValue ->
    bool -> bool -> option Callback -> Outcome JsValue;
  (** [watchCompiler.run(...)] *)
  watchCompiler_run : JsValue -> JsValue -> JsValue -> option Callback -> Outcome unit;
  (** [compiler.run(...)] *)
  compiler_run : JsValue -> JsValue -> JsValue -> option Callback -> Outcome unit
}.

(** ** The build action *)

Module BuildAction.

Local Open Scope effect_scope.

Definition newline : string := String (ascii_of_nat 10) EmptyString.

(** [found!.value] for the result of [Array.prototype.find]: the non-null
    assertion is erased at run time, so [undefined.value] throws. *)
Definition valueOfFound (found : option Input) : Outcome JsValue :=
  match found with
  | Some i => Return (value i)
  | None => Throw (typeErrorRead "value" JUndefined)
  end.

(** [({}) => ({})], line 135: the parameter is an empty destructuring pattern,
    the result a fresh empty object. *)
Definition emptyConfigFactory : JsValue -> Outcome JsValue :=
  fun config =>
    match config with
    | JUndefined | JNull => Throw (typeErrorDestructure config)
    | _ => Return (JObj [])
    end.

Section Action.

Variable E : Env.

(** [join(process.cwd(), webpackPath)], line 128. *)
Definition joinCwd (webpackPath : JsValue) : Outcome string :=
  match webpackPath with
  | JStr p => Return (join E (cwd E) p)
  | _ => Throw typeErrorPathArg
  end.

(** Lines 122-137. *)
Definition getWebpackConfigFactoryByPath (webpackPath defaultPath : JsValue)
    : M WebpackConfigFactoryOrConfig :=
  pathToWebpackFile <- lift (joinCwd webpackPath) ;;
  tryCatch
    (call (RequireFile pathToWebpackFile) (require E pathToWebpackFile))
    (fun err =>
       if negb (strictEq webpackPath defaultPath)
       then throw err
       else ret (WebpackFactory emptyConfigFactory)).

(** Lines 91-119 of [runBuild]: the dispatch on [isWebpackEnabled] and
    [watchMode].  The arguments of the call at lines 100-103 are evaluated
    before the call, so [configuration.compilerOptions!.webpackConfigPath!] is
    read before [getWebpackConfigFactoryByPath] runs.  The result of the
    webpack compiler is returned; the two other compilers are called and
    their result is dropped. *)
Definition dispatch (configuration appName pathToTsconfig isWebpackEnabled : JsValue)
    (options : list Input) (watchMode isDebugEnabled : bool)
    (onSuccess : option Callback) : M JsValue :=
  if truthy isWebpackEnabled then
    let webpackPath :=
      getValueOrDefault E configuration "compilerOptions.webpackConfigPath"
        appName "webpackPath" options in
    compilerOptions <- lift (getProp configuration "compilerOptions") ;;
    defaultPath <- lift (getProp compilerOptions "webpackConfigPath") ;;
    webpackConfigFactoryOrConfig <-
      getWebpackConfigFactoryByPath webpackPath defaultPath ;;
    call
      (WebpackCompilerRun configuration webpackConfigFactoryOrConfig
         pathToTsconfig appName isDebugEnabled watchMode onSuccess)
      (webpackCompiler_run E configuration webpackConfigFactoryOrConfig
         pathToTsconfig appName isDebugEnabled watchMode onSuccess)
  else if watchMode then
    call (WatchCompilerRun configuration pathToTsconfig appName onSuccess)
      (watchCompiler_run E configuration pathToTsconfig appName onSuccess) ;;;
    ret JUndefined
  else
    call (CompilerRun configuration pathToTsconfig appName onSuccess)
      (compiler_run E configuration pathToTsconfig appName onSuccess) ;;;
    ret JUndefined.

(** Lines 55-120. *)
Definition runBuild (inputs options : list Input) (watchMode : bool)
    (isDebugEnabled : bool) (onSuccess : option Callback) : M JsValue :=
  configFileName <-
    lift (valueOfFound (find (fun option => name option =? "config") options)) ;;
  configuration <- call (LoaderLoad configFileName) (loader_load E configFileName) ;;
  appName <-
    lift (valueOfFound (find (fun input => name input =? "app") inputs)) ;;
  let pathToTsconfig :=
    getValueOrDefault E configuration "compilerOptions.tsConfigPath" appName
      "path" options in
  tsConfig <-
    call (GetByConfigFilename pathToTsconfig)
      (tsConfigProvider_getByConfigFilename E pathToTsconfig) ;;
  let outDir := orDefault (outDir tsConfig) (defaultOutDir E) in
  let isWebpackEnabled :=
    getValueOrDefault E configuration "compilerOptions.webpack" appName
      "webpack" options in
  call (DeleteOutDirIfEnabled configuration appName outDir)
    (workspaceUtils_deleteOutDirIfEnabled E configuration appName outDir) ;;;
  call (CopyAssets configuration appName outDir)
    (assetsManager_copyAssets E configuration appName outDir) ;;;
  dispatch configuration appName pathToTsconfig isWebpackEnabled options
    watchMode isDebugEnabled onSuccess.

(** Lines 43-44: [!!(watchModeOption && watchModeOption.value)]. *)
Definition watchModeOf (options : list Input) : bool :=
  let watchModeOption := find (fun option => name option =? "watch") options in
  match watchModeOption with
  | Some o => truthy (value o)
  | None => false
  end.

(** The [catch] block of [handle], lines 46-52. *)
Definition report (err : Exception) : M unit :=
  match err with
  | ErrorInstance _ message =>
      call (ConsoleLog (newline ++ ERROR_PREFIX E ++ " " ++ message ++ newline))
        (Return tt)
  | ThrownValue v =>
      call (ConsoleError (newline ++ chalk_red E v ++ newline)) (Return tt)
  end.

(** Lines 41-53. *)
Definition handle (inputs options : list Input) : M unit :=
  tryCatch
    (let watchMode := watchModeOf options in
     runBuild inputs options watchMode false None ;;;
     ret tt)
    report.

End Action.

(** *** Reading a trace *)

(** The three compilation strategies. *)
Inductive Strategy : Type := Bundling | Watching | OneShot.

Definition strategyOf (ev : Event) : option Strategy :=
  match ev with
  | WebpackCompilerRun _ _ _ _ _ _ _ => Some Bundling
  | WatchCompilerRun _ _ _ _ => Some Watching
  | CompilerRun _ _ _ _ => Some OneShot
  | _ => None
  end.

(** The strategies invoked in a trace, in order. *)
Fixpoint invoked (t : list Event) : list Strategy :=
  match t with
  | [] => []
  | ev :: rest =>
      match strategyOf ev with
      | Some s => s :: invoked rest
      | None => invoked rest
      end
  end.

(** The discriminant as the spec words it: bundling has priority over
    watching, watching over one-shot. *)
Definition selectStrategy (webpackEnabled watchMode : bool) : Strategy :=
  if webpackEnabled then Bundling else if watchMode then Watching else OneShot.

Definition isRequire (ev : Event) : bool :=
  match ev with RequireFile _ => true | _ => false end.

(** *** The paths of a run

    The values resolved along a run, named as in [runBuild]. *)

Definition pathToTsconfigOf (E : Env) (configuration appName : JsValue)
    (options : list Input) : JsValue :=
  getValueOrDefault E configuration "compilerOptions.tsConfigPath" appName
    "path" options.

Definition isWebpackEnabledOf (E : Env) (configuration appName : JsValue)
    (options : list Input) : JsValue :=
  getValueOrDefault E configuration "compilerOptions.webpack" appName
    "webpack" options.

Definition webpackPathOf (E : Env) (configuration appName : JsValue)
    (options : list Input) : JsValue :=
  getValueOrDefault E configuration "compilerOptions.webpackConfigPath"
    appName "webpackPath" options.

Definition outDirOf (E : Env) (tsConfig : TsConfig) : string :=
  orDefault (outDir tsConfig) (defaultOutDir E).

(** A compiler call whose result is dropped: [runBuild] then returns
    [undefined]. *)
Definition dropped (o : Outcome unit) : Outcome JsValue :=
  match o with
  | Return _ => Return JUndefined
  | Throw e => Throw e
  end.

(** The run gets past line 89: both required fields are found, the
    configuration and the tsconfig are obtained, cleanup and asset copy
    return. *)
Definition reachesDispatch (E : Env) (inputs options : list Input)
    (configuration appName : JsValue) (tsConfig : TsConfig) : Prop :=
  exists configOption appInput,
    find (fun option => name option =? "config") options = Some configOption /\
    loader_load E (value configOption) = Return configuration /\
    find (fun input => name input =? "app") inputs = Some appInput /\
    value appInput = appName /\
    tsConfigProvider_getByConfigFilename E
      (pathToTsconfigOf E configuration appName options) = Return tsConfig /\
    workspaceUtils_deleteOutDirIfEnabled E configuration appName
      (outDirOf E tsConfig) = Return tt /\
    assetsManager_copyAssets E configuration appName (outDirOf E tsConfig)
      = Return tt.

(** The calls made up to line 89 by a run that reaches the dispatch. *)
Definition preamble (E : Env) (options : list Input)
    (configFileName configuration appName : JsValue) (tsConfig : TsConfig)
    : list Event :=
  [ LoaderLoad configFileName;
    GetByConfigFilename (pathToTsconfigOf E configuration appName options);
    DeleteOutDirIfEnabled configuration appName (outDirOf E tsConfig);
    CopyAssets configuration appName (outDirOf E tsConfig) ].

Section Paths.

Variable E : Env.
Variables inputs options : list Input.
Variables watchMode isDebugEnabled : bool.
Variable onSuccess : option Callback.

(** The eight ways through lines 91-119. *)
Inductive DispatchPath (configuration appName : JsValue) : M JsValue -> Prop :=
| via_watch :
    truthy (isWebpackEnabledOf E configuration appName options) = false ->
    watchMode = true ->
    DispatchPath configuration appName
      ([WatchCompilerRun configuration
          (pathToTsconfigOf E configuration appName options) appName onSuccess],
       dropped (watchCompiler_run E configuration
                  (pathToTsconfigOf E configuration appName options) appName
                  onSuccess))
| via_compiler :
    truthy (isWebpackEnabledOf E configuration appName options) = false ->
    watchMode = false ->
    DispatchPath configuration appName
      ([CompilerRun configuration
          (pathToTsconfigOf E configuration appName options) appName onSuccess],
       dropped (compiler_run E configuration
                  (pathToTsconfigOf E configuration appName options) appName
                  onSuccess))
| webpack_no_configuration e :
    truthy (isWebpackEnabledOf E configuration appName options) = true ->
    getProp configuration "compilerOptions" = Throw e ->
    DispatchPath configuration appName ([], Throw e)
| webpack_no_compilerOptions compilerOptions e :
    truthy (isWebpackEnabledOf E configuration appName options) = true ->
    getProp configuration "compilerOptions" = Return compilerOptions ->
    getProp compilerOptions "webpackConfigPath" = Throw e ->
    DispatchPath configuration appName ([], Throw e)
| webpack_path_not_string compilerOptions defaultPath e :
    truthy (isWebpackEnabledOf E configuration appName options) = true ->
    getProp configuration "compilerOptions" = Return compilerOptions ->
    getProp compilerOptions "webpackConfigPath" = Return defaultPath ->
    joinCwd E (webpackPathOf E configuration appName options) = Throw e ->
    DispatchPath configuration appName ([], Throw e)
| webpack_loaded compilerOptions defaultPath file loaded :
    truthy (isWebpackEnabledOf E configuration appName options) = true ->
    getProp configuration "compilerOptions" = Return compilerOptions ->
    getProp compilerOptions "webpackConfigPath" = Return defaultPath ->
    joinCwd E (webpackPathOf E configuration appName options) = Return file ->
    require E file = Return loaded ->
    DispatchPath configuration appName
      ([RequireFile file;
        WebpackCompilerRun configuration loaded
          (pathToTsconfigOf E configuration appName options) appName
          isDebugEnabled watchMode onSuccess],
       webpackCompiler_run E configuration loaded
         (pathToTsconfigOf E configuration appName options) appName
         isDebugEnabled watchMode onSuccess)
| webpack_rethrow compilerOptions defaultPath file e :
    truthy (isWebpackEnabledOf E configuration appName options) = true ->
    getProp configuration "compilerOptions" = Return compilerOptions ->
    getProp compilerOptions "webpackConfigPath" = Return defaultPath ->
    joinCwd E (webpackPathOf E configuration appName options) = Return file ->
    require E file = Throw e ->
    strictEq (webpackPathOf E configuration appName options) defaultPath = false ->
    DispatchPath configuration appName ([RequireFile file], Throw e)
| webpack_fallback compilerOptions defaultPath file e :
    truthy (isWebpackEnabledOf E configuration appName options) = true ->
    getProp configuration "compilerOptions" = Return compilerOptions ->
    getProp compilerOptions "webpackConfigPath" = Return defaultPath ->
    joinCwd E (webpackPathOf E configuration appName options) = Return file ->
    require E file = Throw e ->
    strictEq (webpackPathOf E configuration appName options) defaultPath = true ->
    DispatchPath configuration appName
      ([RequireFile file;
        WebpackCompilerRun configuration (WebpackFactory emptyConfigFactory)
          (pathToTsconfigOf E configuration appName options) appName
          isDebugEnabled watchMode onSuccess],
       webpackCompiler_run E configuration (WebpackFactory emptyConfigFactory)
         (pathToTsconfigOf E configuration appName options) appName
         isDebugEnabled watchMode onSuccess).

(** The ways through [runBuild]: it stops at one of lines 62-89, or it
    reaches the dispatch and goes on along one of its paths. *)
Inductive RunPath : M JsValue -> Prop :=
| stop_no_config :
    find (fun option => name option =? "config") options = None ->
    RunPath ([], Throw (typeErrorRead "value" JUndefined))
| stop_load configOption e :
    find (fun option => name option =? "config") options = Some configOption ->
    loader_load E (value configOption) = Throw e ->
    RunPath ([LoaderLoad (value configOption)], Throw e)
| stop_no_app configOption configuration :
    find (fun option => name option =? "config") options = Some configOption ->
    loader_load E (value configOption) = Return configuration ->
    find (fun input => name input =? "app") inputs = None ->
    RunPath ([LoaderLoad (value configOption)],
             Throw (typeErrorRead "value" JUndefined))
| stop_tsconfig configOption configuration appInput e :
    find (fun option => name option =? "config") options = Some configOption ->
    loader_load E (value configOption) = Return configuration ->
    find (fun input => name input =? "app") inputs = Some appInput ->
    tsConfigProvider_getByConfigFilename E
      (pathToTsconfigOf E configuration (value appInput) options) = Throw e ->
    RunPath
      ([LoaderLoad (value configOption);
        GetByConfigFilename
          (pathToTsconfigOf E configuration (value appInput) options)],
       Throw e)
| stop_cleanup configOption configuration appInput tsConfig e :
    find (fun option => name option =? "config") options = Some configOption ->
    loader_load E (value configOption) = Return configuration ->
    find (fun input => name input =? "app") inputs = Some appInput ->
    tsConfigProvider_getByConfigFilename E
      (pathToTsconfigOf E configuration (value appInput) options)
      = Return tsConfig ->
    workspaceUtils_deleteOutDirIfEnabled E configuration (value appInput)
      (outDirOf E tsConfig) = Throw e ->
    RunPath
      ([LoaderLoad (value configOption);
        GetByConfigFilename
          (pathToTsconfigOf E configuration (value appInput) options);
        DeleteOutDirIfEnabled configuration (value appInput)
          (outDirOf E tsConfig)],
       Throw e)
| stop_assets configOption configuration appInput tsConfig e :
    find (fun option => name option =? "config") options = Some configOption ->
    loader_load E (value configOption) = Return configuration ->
    find (fun input => name input =? "app") inputs = Some appInput ->
    tsConfigProvider_getByConfigFilename E
      (pathToTsconfigOf E configuration (value appInput) options)
      = Return tsConfig ->
    workspaceUtils_deleteOutDirIfEnabled E configuration (value appInput)
      (outDirOf E tsConfig) = Return tt ->
    assetsManager_copyAssets E configuration (value appInput)
      (outDirOf E tsConfig) = Throw e ->
    RunPath
      (preamble E options (value configOption) configuration (value appInput)
         tsConfig,
       Throw e)
| reach configOption configuration appName tsConfig d :
    find (fun option => name option =? "config") options = Some configOption ->
    reachesDispatch E inputs options configuration appName tsConfig ->
    DispatchPath configuration appName d ->
    RunPath
      ((preamble E options (value configOption) configuration appName tsConfig
          ++ trace d)%list,
       outcome d).

End Paths.

End BuildAction.

(** ** Concrete invocations *)

Module Fixtures.

(** The error of [require] on a path where no module is. *)
Definition moduleNotFound : Exception :=
  ErrorInstance "Error" "Cannot find module".

(** An environment in which the configuration file holds [configuration],
    the tsconfig declares [declaredOutDir], no webpack configuration file
    exists and every other collaborator returns. *)
Definition env (configuration : JsValue) (declaredOutDir : option string) : Env :=
  {| cwd := "/work";
     join := fun a b => a ++ "/" ++ b;
     require := fun _ => Throw moduleNotFound;
     defaultOutDir := "dist";
     ERROR_PREFIX := "Error";
     chalk_red := fun _ => "thrown";
     getValueOrDefault := fun c p a k o =>
       ValueResolver.getValueOrDefault c p a k o JUndefined;
     loader_load := fun _ => Return configuration;
     tsConfigProvider_getByConfigFilename := fun _ => Return (mkTsConfig declaredOutDir);
     workspaceUtils_deleteOutDirIfEnabled := fun _ _ _ => Return tt;
     assetsManager_copyAssets := fun _ _ _ => Return tt;
     webpackCompiler_run := fun _ _ _ _ _ _ _ => Return JUndefined;
     watchCompiler_run := fun _ _ _ _ => Return tt;
     compiler_run := fun _ _ _ _ => Return tt |}.

Definition inputs : list Input := [mkInput "app" (JStr "api")].

Definition options : list Input := [mkInput "config" (JStr "nest-cli.json")].

(** Webpack disabled. *)
Definition plainConfiguration : JsValue :=
  JObj [("compilerOptions", JObj [("tsConfigPath", JStr "tsconfig.build.json")])].

(** Webpack enabled, with a webpack configuration path. *)
Definition webpackCompilerOptions : JsValue :=
  JObj [("tsConfigPath", JStr "tsconfig.build.json");
        ("webpack", JBool true);
        ("webpackConfigPath", JStr "webpack.config.js")].

Definition webpackConfiguration : JsValue :=
  JObj [("compilerOptions", webpackCompilerOptions)].

(** Webpack enabled, the configuration itself naming a webpack configuration
    file of its own choice. *)
Definition declaredPathConfiguration : JsValue :=
  JObj [("compilerOptions",
         JObj [("tsConfigPath", JStr "tsconfig.build.json");
               ("webpack", JBool true);
               ("webpackConfigPath", JStr "custom.webpack.js")])].

(** No [compilerOptions] section at all. *)
Definition bareConfiguration : JsValue := JObj [].

(** The user asks for another webpack configuration file. *)
Definition explicitPathOptions : list Input :=
  [mkInput "config" (JStr "nest-cli.json");
   mkInput "webpackPath" (JStr "custom.webpack.js")].

(** The user switches webpack on from the command line. *)
Definition webpackOptions : list Input :=
  [mkInput "config" (JStr "nest-cli.json"); mkInput "webpack" (JBool true)].

(** Two entries of the same name. *)
Definition unsetThenSet : list Input :=
  [mkInput "path" JUndefined; mkInput "path" (JStr "b.json")].

Definition setTwice : list Input :=
  [mkInput "path" (JStr "a.json"); mkInput "path" (JStr "b.json")].

Definition watchOffThenOn : list Input :=
  [mkInput "watch" (JBool false); mkInput "watch" (JBool true)].

(** A base configuration handed to a configuration factory. *)
Definition baseConfiguration : JsValue := JObj [("mode", JStr "production")].

End Fixtures.

(** ** Reading the answers of the collaborators *)

Module RunReading.

Import BuildAction.

(** What a run that ends on the strategy call [ev] yields: the answer of the
    webpack compiler is returned, that of the two other compilers is
    dropped. *)
Definition strategyAnswer (E : Env) (ev : Event) : Outcome JsValue :=
  match ev with
  | WebpackCompilerRun configuration factory pathToTsconfig appName
      isDebugEnabled watchMode onSuccess =>
      webpackCompiler_run E configuration factory pathToTsconfig appName
        isDebugEnabled watchMode onSuccess
  | WatchCompilerRun configuration pathToTsconfig appName onSuccess =>
      dropped (watchCompiler_run E configuration pathToTsconfig appName onSuccess)
  | CompilerRun configuration pathToTsconfig appName onSuccess =>
      dropped (compiler_run E configuration pathToTsconfig appName onSuccess)
  | _ => Return JUndefined
  end.

(** The collaborator called by [ev] answers by throwing [e]. *)
Definition collaboratorThrows (E : Env) (ev : Event) (e : Exception) : Prop :=
  match ev with
  | LoaderLoad configFileName => loader_load E configFileName = Throw e
  | GetByConfigFilename pathToTsconfig =>
      tsConfigProvider_getByConfigFilename E pathToTsconfig = Throw e
  | DeleteOutDirIfEnabled configuration appName dir =>
      workspaceUtils_deleteOutDirIfEnabled E configuration appName dir = Throw e
  | CopyAssets configuration appName dir =>
      assetsManager_copyAssets E configuration appName dir = Throw e
  | RequireFile pathToWebpackFile => require E pathToWebpackFile = Throw e
  | WebpackCompilerRun configuration factory pathToTsconfig appName
      isDebugEnabled watchMode onSuccess =>
      webpackCompiler_run E configuration factory pathToTsconfig appName
        isDebugEnabled watchMode onSuccess = Throw e
  | WatchCompilerRun configuration pathToTsconfig appName onSuccess =>
      watchCompiler_run E configuration pathToTsconfig appName onSuccess = Throw e
  | CompilerRun configuration pathToTsconfig appName onSuccess =>
      compiler_run E configuration pathToTsconfig appName onSuccess = Throw e
  | ConsoleLog _ | ConsoleError _ => False
  end.

(** The errors that the action raises by itself: reading a property of
    [undefined] or [null] (lines 62, 64 and 102), and [path.join] on a value
    that is no string (line 128). *)
Definition ownTypeError (e : Exception) : Prop :=
  (exists p base, e = typeErrorRead p base) \/ e = typeErrorPathArg.

Definition isLoaderLoad (ev : Event) : bool :=
  match ev with LoaderLoad _ => true | _ => false end.

End RunReading.

(** ** More concrete invocations *)

Module MoreFixtures.

Import Fixtures.

(** A webpack configuration object, as a file would export it. *)
Definition exportedConfiguration : WebpackConfigFactoryOrConfig :=
  WebpackConfig (JObj [("target", JStr "node")]).

(** As [env], with a webpack configuration file at every path. *)
Definition envWithWebpackFile (configuration : JsValue) : Env :=
  {| cwd := "/work";
     join := fun a b => a ++ "/" ++ b;
     require := fun _ => Return exportedConfiguration;
     defaultOutDir := "dist";
     ERROR_PREFIX := "Error";
     chalk_red := fun _ => "thrown";
     getValueOrDefault := fun c p a k o =>
       ValueResolver.getValueOrDefault c p a k o JUndefined;
     loader_load := fun _ => Return configuration;
     tsConfigProvider_getByConfigFilename := fun _ => Return (mkTsConfig None);
     workspaceUtils_deleteOutDirIfEnabled := fun _ _ _ => Return tt;
     assetsManager_copyAssets := fun _ _ _ => Return tt;
     webpackCompiler_run := fun _ _ _ _ _ _ _ => Return JUndefined;
     watchCompiler_run := fun _ _ _ _ => Return tt;
     compiler_run := fun _ _ _ _ => Return tt |}.

(** The error of a compiler. *)
Definition compilationFailed : Exception :=
  ErrorInstance "Error" "Compilation failed".

(** As [env], with a one-shot compiler that throws. *)
Definition envWithFailingCompiler (configuration : JsValue) : Env :=
  {| cwd := "/work";
     join := fun a b => a ++ "/" ++ b;
     require := fun _ => Throw moduleNotFound;
     defaultOutDir := "dist";
     ERROR_PREFIX := "Error";
     chalk_red := fun _ => "thrown";
     getValueOrDefault := fun c p a k o =>
       ValueResolver.getValueOrDefault c p a k o JUndefined;
     loader_load := fun _ => Return configuration;
     tsConfigProvider_getByConfigFilename := fun _ => Return (mkTsConfig None);
     workspaceUtils_deleteOutDirIfEnabled := fun _ _ _ => Return tt;
     assetsManager_copyAssets := fun _ _ _ => Return tt;
     webpackCompiler_run := fun _ _ _ _ _ _ _ => Return JUndefined;
     watchCompiler_run := fun _ _ _ _ => Return tt;
     compiler_run := fun _ _ _ _ => Throw compilationFailed |}.

(** The user asks for watch mode. *)
Definition watchOptions : list Input :=
  [mkInput "config" (JStr "nest-cli.json"); mkInput "watch" (JBool true)].

(** Webpack enabled, and no webpack configuration path anywhere. *)
Definition webpackWithoutPath : JsValue :=
  JObj [("compilerOptions", JObj [("webpack", JBool true)])].

End MoreFixtures.

(** * Facts *)

(** ** Lists of named inputs *)

Module InputFacts.

Local Open Scope list_scope.

Lemma find_name_none (k : string) (l : list Input) :
  (forall x, In x l -> name x <> k) ->
  find (fun x => name x =? k) l = None.
Proof.
  induction l as [|x l IH]; intros H; simpl; [reflexivity|].
  destruct (name x =? k) eqn:Hx.
  - apply String.eqb_eq in Hx. exfalso. apply (H x); [now left|assumption].
  - apply IH. intros y Hy. apply H. now right.
Qed.

Lemma find_name_some (k : string) (l : list Input) x :
  find (fun x => name x =? k) l = Some x -> In x l /\ name x = k.
Proof.
  intros H. apply find_some in H as [Hin Hn]. split; [assumption|].
  now apply String.eqb_eq.
Qed.

Lemma find_unique (k : string) (l : list Input) x :
  In x l -> name x = k ->
  (forall y, In y l -> name y = k -> y = x) ->
  find (fun x => name x =? k) l = Some x.
Proof.
  intros Hin Hname Huniq.
  destruct (find (fun x => name x =? k) l) as [y|] eqn:Hf.
  - apply find_name_some in Hf as [Hy Hn]. f_equal. now apply Huniq.
  - apply find_none with (x := x) in Hf; [|assumption].
    apply String.eqb_neq in Hf. contradiction.
Qed.

End InputFacts.

(** ** The value resolver *)

Module ValueResolverFacts.

Import InputFacts Fixtures.
Local Open Scope list_scope.

(** The option found by name wins when its value is set. *)
Lemma first_named_option_wins configuration propertyPath appName key options
    defaultValue o :
  find (fun option => name option =? key) options = Some o ->
  value o <> JUndefined -> value o <> JNull ->
  ValueResolver.getValueOrDefault configuration propertyPath appName key options
    defaultValue = value o.
Proof.
  intros Hfind Hset Hnull. unfold ValueResolver.getValueOrDefault. rewrite Hfind.
  destruct (value o); try reflexivity; contradiction.
Qed.

(** C8.  If the options list contains an entry whose name is the requested
    option name and whose value is set (neither [undefined] nor [null]), the
    resolver returns that value as it is, whatever the configuration (its
    override for the application and its global value), the application
    name, the dotted path and the fallback are.  Names are unique in an
    options list, which callers keep: no other entry has the requested
    name. *)
Theorem unique_named_option_wins configuration propertyPath appName key options
    defaultValue o :
  In o options -> name o = key ->
  value o <> JUndefined -> value o <> JNull ->
  (forall o', In o' options -> name o' = key -> o' = o) ->
  ValueResolver.getValueOrDefault configuration propertyPath appName key options
    defaultValue = value o.
Proof.
  intros Hin Hname Hset Hnull Huniq.
  apply first_named_option_wins; try assumption.
  now apply find_unique.
Qed.

(** The three lower sources, in the order of the spec. *)
Example override_of_the_application :
  ValueResolver.getValueOrDefault
    (JObj [("compilerOptions", JObj [("webpack", JBool false)]);
           ("projects",
            JObj [("api",
                   JObj [("compilerOptions", JObj [("webpack", JBool true)])])])])
    "compilerOptions.webpack" (JStr "api") "webpack" options
    (JBool false)
  = JBool true.
Proof. reflexivity. Qed.

Example global_value :
  ValueResolver.getValueOrDefault webpackConfiguration
    "compilerOptions.webpackConfigPath" (JStr "api") "webpackPath"
    options JUndefined
  = JStr "webpack.config.js".
Proof. reflexivity. Qed.

Example fallback_value :
  ValueResolver.getValueOrDefault bareConfiguration
    "compilerOptions.tsConfigPath" (JStr "api") "path" options
    (JStr "tsconfig.json")
  = JStr "tsconfig.json".
Proof. reflexivity. Qed.

Example split_dotted_path :
  ValueResolver.splitPath "compilerOptions.webpackConfigPath"
  = ["compilerOptions"; "webpackConfigPath"].
Proof. reflexivity. Qed.

(** An option that is [null] is unset: the lower sources decide. *)
Example null_option_falls_through :
  ValueResolver.getValueOrDefault plainConfiguration
    "compilerOptions.tsConfigPath" (JStr "api") "path"
    [mkInput "path" JNull] JUndefined
  = JStr "tsconfig.build.json".
Proof. reflexivity. Qed.

(** An option that is the empty string is set. *)
Example empty_string_option_wins :
  ValueResolver.getValueOrDefault plainConfiguration
    "compilerOptions.tsConfigPath" (JStr "api") "path"
    [mkInput "path" (JStr EmptyString)] JUndefined
  = JStr EmptyString.
Proof. reflexivity. Qed.

(** C8, at the options of a user who asks for another webpack configuration
    file, against a configuration that names one globally. *)
Lemma unique_named_option_wins_witness :
  ValueResolver.getValueOrDefault webpackConfiguration
    "compilerOptions.webpackConfigPath" (JStr "api") "webpackPath"
    explicitPathOptions JUndefined
  = JStr "custom.webpack.js".
Proof.
  apply (unique_named_option_wins webpackConfiguration
           "compilerOptions.webpackConfigPath" (JStr "api") "webpackPath"
           explicitPathOptions JUndefined
           (mkInput "webpackPath" (JStr "custom.webpack.js"))).
  - right. left. reflexivity.
  - reflexivity.
  - discriminate.
  - discriminate.
  - intros o' [<-|[<-|[]]] Hn; [discriminate Hn|reflexivity].
Defined.

(** Where the options list breaks the uniqueness of names, the first entry
    of the requested name decides: a later entry does not win, be the
    earlier one unset or set. *)
Remark later_named_option_does_not_win :
  ~ (forall o,
       In o unsetThenSet -> name o = "path" -> value o <> JUndefined ->
       ValueResolver.getValueOrDefault plainConfiguration
         "compilerOptions.tsConfigPath" (JStr "api") "path" unsetThenSet
         JUndefined = value o) /\
  ~ (forall o,
       In o setTwice -> name o = "path" -> value o <> JUndefined ->
       ValueResolver.getValueOrDefault plainConfiguration
         "compilerOptions.tsConfigPath" (JStr "api") "path" setTwice
         JUndefined = value o).
Proof.
  split; intros H;
    specialize (H (mkInput "path" (JStr "b.json")));
    cbn in H; discriminate H; auto; discriminate.
Qed.

End ValueResolverFacts.

(** ** The build action *)

Module BuildActionFacts.

Import BuildAction InputFacts Fixtures.
Local Open Scope list_scope.

(** *** Computations *)

Lemma bind_lift {A B} (o : Outcome A) (k : A -> M B) :
  bind (lift o) k =
  match o with Return a => k a | Throw e => ([], Throw e) end.
Proof. destruct o as [a|e]; simpl; [destruct (k a)|]; reflexivity. Qed.

Lemma bind_call {A B} ev (o : Outcome A) (k : A -> M B) :
  bind (call ev o) k =
  match o with
  | Return a => (ev :: trace (k a), outcome (k a))
  | Throw e => ([ev], Throw e)
  end.
Proof. destruct o as [a|e]; simpl; [destruct (k a)|]; reflexivity. Qed.

Lemma bind_call_dropped ev (o : Outcome unit) :
  bind (call ev o) (fun _ => ret JUndefined) = ([ev], dropped o).
Proof. now destruct o. Qed.

Section PathFacts.
Variable E : Env.
Variables inputs options : list Input.
Variables watchMode isDebugEnabled : bool.
Variable onSuccess : option Callback.

(** Every dispatch follows one of the eight paths. *)
Lemma dispatch_path configuration appName :
  DispatchPath E options watchMode isDebugEnabled onSuccess configuration appName
    (dispatch E configuration appName
       (pathToTsconfigOf E configuration appName options)
       (isWebpackEnabledOf E configuration appName options)
       options watchMode isDebugEnabled onSuccess).
Proof.
  unfold dispatch.
  destruct (truthy (isWebpackEnabledOf E configuration appName options)) eqn:Hw.
  - rewrite bind_lift.
    destruct (getProp configuration "compilerOptions") as [co|e] eqn:Hco;
      [|eapply webpack_no_configuration; eassumption].
    rewrite bind_lift.
    destruct (getProp co "webpackConfigPath") as [d|e] eqn:Hd;
      [|eapply webpack_no_compilerOptions; eassumption].
    unfold getWebpackConfigFactoryByPath. fold (webpackPathOf E configuration appName options).
    rewrite bind_lift.
    destruct (joinCwd E (webpackPathOf E configuration appName options))
      as [file|e] eqn:Hj; [|eapply webpack_path_not_string; eassumption].
    unfold tryCatch, call at 1.
    destruct (require E file) as [loaded|e] eqn:Hr.
    + simpl. eapply webpack_loaded; eassumption.
    + destruct (strictEq (webpackPathOf E configuration appName options) d) eqn:Hs;
        simpl.
      * eapply webpack_fallback; eassumption.
      * eapply webpack_rethrow; eassumption.
  - destruct watchMode eqn:Hm; rewrite bind_call_dropped.
    + apply via_watch; [assumption|reflexivity].
    + apply via_compiler; [assumption|reflexivity].
Qed.

(** Every run of [runBuild] follows one of the paths. *)
Lemma runBuild_path :
  RunPath E inputs options watchMode isDebugEnabled onSuccess
    (runBuild E inputs options watchMode isDebugEnabled onSuccess).
Proof.
  unfold runBuild. rewrite bind_lift.
  destruct (find (fun option => name option =? "config") options)
    as [c|] eqn:Hc; cbn [valueOfFound]; [|eapply stop_no_config; eassumption].
  rewrite bind_call.
  destruct (loader_load E (value c)) as [cfg|e] eqn:Hl; [|eapply stop_load; eassumption].
  rewrite bind_lift.
  destruct (find (fun input => name input =? "app") inputs)
    as [a|] eqn:Ha; cbn [valueOfFound]; [|eapply stop_no_app; eassumption].
  fold (pathToTsconfigOf E cfg (value a) options).
  fold (isWebpackEnabledOf E cfg (value a) options).
  rewrite bind_call.
  destruct (tsConfigProvider_getByConfigFilename E _) as [ts|e] eqn:Ht;
    [|eapply stop_tsconfig; eassumption].
  fold (outDirOf E ts). rewrite bind_call.
  destruct (workspaceUtils_deleteOutDirIfEnabled E cfg (value a) (outDirOf E ts))
    as [[]|e] eqn:Hd; [|eapply stop_cleanup; eassumption].
  rewrite bind_call.
  destruct (assetsManager_copyAssets E cfg (value a) (outDirOf E ts))
    as [[]|e] eqn:Hp; [|eapply stop_assets; eassumption].
  cbn [trace outcome fst snd].
  apply (reach E inputs options watchMode isDebugEnabled onSuccess c cfg (value a) ts);
    [assumption| |apply dispatch_path].
  exists c, a. repeat split; assumption.
Qed.

End PathFacts.

(** *** Traces *)

Lemma invoked_app a b : invoked (a ++ b) = invoked a ++ invoked b.
Proof.
  induction a as [|ev a IH]; simpl; [reflexivity|].
  destruct (strategyOf ev); simpl; now rewrite IH.
Qed.

Lemma invoked_split_nonempty before ev after :
  strategyOf ev <> None -> invoked (before ++ ev :: after) <> [].
Proof.
  intros Hev. rewrite invoked_app. simpl.
  destruct (strategyOf ev); [|contradiction].
  now destruct (invoked before).
Qed.

(** The place of a strategy call in a trace that holds a single one. *)
Lemma split_at_strategy l1 s l2 before ev after :
  l1 ++ s :: l2 = before ++ ev :: after ->
  invoked l1 = [] -> invoked l2 = [] ->
  strategyOf ev <> None ->
  before = l1.
Proof.
  revert before. induction l1 as [|x l1 IH]; intros before Heq H1 H2 Hev.
  - destruct before as [|b before]; [reflexivity|].
    simpl in Heq. injection Heq as _ Heq. subst l2.
    now apply invoked_split_nonempty in H2.
  - simpl in H1. destruct (strategyOf x) eqn:Hx; [discriminate|].
    destruct before as [|b before]; simpl in Heq; injection Heq as Hb Heq.
    + subst x. contradiction.
    + subst b. f_equal. now apply IH.
Qed.

Lemma strictEq_JStr p d : strictEq (JStr p) d = true <-> d = JStr p.
Proof.
  destruct d; simpl; split; intros H; try discriminate.
  - apply String.eqb_eq in H. now subst.
  - injection H as ->. apply String.eqb_refl.
Qed.

Section RunFacts.
Variable E : Env.
Variables inputs options : list Input.
Variables watchMode isDebugEnabled : bool.
Variable onSuccess : option Callback.

(** The values resolved by a run are determined by the invocation. *)
Lemma reachesDispatch_functional c1 a1 t1 c2 a2 t2 :
  reachesDispatch E inputs options c1 a1 t1 ->
  reachesDispatch E inputs options c2 a2 t2 ->
  c1 = c2 /\ a1 = a2 /\ t1 = t2.
Proof.
  intros (o1 & i1 & Ho1 & Hl1 & Hi1 & Ha1 & Ht1 & _)
         (o2 & i2 & Ho2 & Hl2 & Hi2 & Ha2 & Ht2 & _).
  rewrite Ho1 in Ho2. injection Ho2 as <-.
  rewrite Hl1 in Hl2. injection Hl2 as <-.
  rewrite Hi1 in Hi2. injection Hi2 as <-.
  rewrite Ha1 in Ha2. subst a2.
  rewrite Ht1 in Ht2. injection Ht2 as <-. auto.
Qed.

(** A run that reaches the dispatch is the preamble followed by the
    dispatch. *)
Lemma runBuild_reaches configuration appName tsConfig :
  reachesDispatch E inputs options configuration appName tsConfig ->
  exists configFileName,
    runBuild E inputs options watchMode isDebugEnabled onSuccess =
    (preamble E options configFileName configuration appName tsConfig ++
       trace (dispatch E configuration appName
                (pathToTsconfigOf E configuration appName options)
                (isWebpackEnabledOf E configuration appName options)
                options watchMode isDebugEnabled onSuccess),
     outcome (dispatch E configuration appName
                (pathToTsconfigOf E configuration appName options)
                (isWebpackEnabledOf E configuration appName options)
                options watchMode isDebugEnabled onSuccess)).
Proof.
  intros (c & a & Hc & Hl & Ha & Hv & Ht & Hd & Hp). subst appName.
  exists (value c). unfold runBuild.
  rewrite bind_lift, Hc. cbn [valueOfFound].
  rewrite bind_call, Hl, bind_lift, Ha. cbn [valueOfFound].
  fold (pathToTsconfigOf E configuration (value a) options).
  fold (isWebpackEnabledOf E configuration (value a) options).
  rewrite bind_call, Ht. fold (outDirOf E tsConfig).
  rewrite bind_call, Hd, bind_call, Hp. reflexivity.
Qed.

(** A run whose webpack configuration file fails to load: the file is
    required, then the failure is rethrown or the fallback goes to the
    webpack compiler, by the comparison of line 132. *)
Lemma runBuild_load_failure configuration appName tsConfig p compilerOptions
    defaultPath e :
  reachesDispatch E inputs options configuration appName tsConfig ->
  truthy (isWebpackEnabledOf E configuration appName options) = true ->
  webpackPathOf E configuration appName options = JStr p ->
  getProp configuration "compilerOptions" = Return compilerOptions ->
  getProp compilerOptions "webpackConfigPath" = Return defaultPath ->
  require E (join E (cwd E) p) = Throw e ->
  exists configFileName,
    runBuild E inputs options watchMode isDebugEnabled onSuccess =
    (preamble E options configFileName configuration appName tsConfig ++
       RequireFile (join E (cwd E) p) ::
       (if strictEq (JStr p) defaultPath
        then [WebpackCompilerRun configuration
                (WebpackFactory emptyConfigFactory)
                (pathToTsconfigOf E configuration appName options) appName
                isDebugEnabled watchMode onSuccess]
        else []),
     if strictEq (JStr p) defaultPath
     then webpackCompiler_run E configuration
            (WebpackFactory emptyConfigFactory)
            (pathToTsconfigOf E configuration appName options) appName
            isDebugEnabled watchMode onSuccess
     else Throw e).
Proof.
  intros Hreach Hw Hp Hco Hd Hreq.
  destruct (runBuild_reaches _ _ _ Hreach) as [file Hrun].
  exists file. rewrite Hrun. clear Hrun.
  unfold dispatch. rewrite Hw, bind_lift, Hco, bind_lift, Hd.
  fold (webpackPathOf E configuration appName options). rewrite Hp.
  unfold getWebpackConfigFactoryByPath. rewrite bind_lift. cbn [joinCwd].
  unfold tryCatch, call. rewrite Hreq.
  destruct (strictEq (JStr p) defaultPath); cbn;
    [destruct (webpackCompiler_run _ _ _ _ _ _ _ _)|]; reflexivity.
Qed.

(** The dispatch calls neither the cleanup nor the asset copy. *)
Lemma dispatch_no_cleanup configuration appName d ev :
  DispatchPath E options watchMode isDebugEnabled onSuccess configuration
    appName d ->
  In ev (trace d) ->
  match ev with
  | DeleteOutDirIfEnabled _ _ _ | CopyAssets _ _ _ => False
  | _ => True
  end.
Proof.
  intros Hd Hin. destruct Hd; simpl in Hin;
    repeat (destruct Hin as [<-|Hin]; [exact I|]); contradiction.
Qed.

End RunFacts.

(** *** The claims on the action *)

Section Claims.
Variable E : Env.
Variables inputs options : list Input.
Variables watchMode isDebugEnabled : bool.
Variable onSuccess : option Callback.


(** C1 (as amended).  When the webpack configuration file fails to load and
    the requested path is the default path, [getWebpackConfigFactoryByPath]
    swallows the failure and returns a factory that ignores its argument:
    applied to any base configuration object it returns the empty
    configuration object. *)
Theorem fallback_factory_returns_empty_configuration p e :
  require E (join E (cwd E) p) = Throw e ->
  exists factory,
    getWebpackConfigFactoryByPath E (JStr p) (JStr p) =
      ([RequireFile (join E (cwd E) p)], Return (WebpackFactory factory)) /\
    forall fields, factory (JObj fields) = Return (JObj []).
Proof.
  intros Hreq. exists emptyConfigFactory. split; [|reflexivity].
  unfold getWebpackConfigFactoryByPath. rewrite bind_lift. cbn [joinCwd].
  unfold tryCatch, call. rewrite Hreq.
  replace (strictEq (JStr p) (JStr p)) with true; [reflexivity|].
  symmetry. now apply strictEq_JStr.
Qed.

(** C2 (as amended).  In a run with webpack enabled in which the resolved
    webpack configuration path differs from
    [configuration.compilerOptions.webpackConfigPath], which is the value the
    code takes for the default path, and loading the file at that path
    fails, [runBuild] throws the load error itself, having required the
    file, and invokes no compilation strategy. *)
Theorem explicit_path_load_failure_propagates configuration appName tsConfig
    p compilerOptions defaultPath e :
  reachesDispatch E inputs options configuration appName tsConfig ->
  truthy (isWebpackEnabledOf E configuration appName options) = true ->
  webpackPathOf E configuration appName options = JStr p ->
  getProp configuration "compilerOptions" = Return compilerOptions ->
  getProp compilerOptions "webpackConfigPath" = Return defaultPath ->
  defaultPath <> JStr p ->
  require E (join E (cwd E) p) = Throw e ->
  outcome (runBuild E inputs options watchMode isDebugEnabled onSuccess) = Throw e /\
  invoked (trace (runBuild E inputs options watchMode isDebugEnabled onSuccess)) = [] /\
  In (RequireFile (join E (cwd E) p))
    (trace (runBuild E inputs options watchMode isDebugEnabled onSuccess)).
Proof.
  intros Hreach Hw Hp Hco Hd Hne Hreq.
  destruct (runBuild_load_failure E inputs options watchMode isDebugEnabled
              onSuccess _ _ _ _ _ _ _ Hreach Hw Hp Hco Hd Hreq)
    as [file Hrun].
  rewrite Hrun. clear Hrun. cbn [trace outcome fst snd].
  destruct (strictEq (JStr p) defaultPath) eqn:Hs;
    [apply strictEq_JStr in Hs; contradiction|].
  repeat split; try reflexivity. apply in_or_app. right. now left.
Qed.

(** C3.  A run of [runBuild] that returns has invoked exactly one
    compilation strategy: bundling if webpack is enabled, otherwise watching
    if [watchMode], otherwise one-shot; the two others are not invoked. *)
Theorem successful_run_invokes_exactly_one_strategy v :
  outcome (runBuild E inputs options watchMode isDebugEnabled onSuccess) = Return v ->
  exists configuration appName tsConfig,
    reachesDispatch E inputs options configuration appName tsConfig /\
    invoked (trace (runBuild E inputs options watchMode isDebugEnabled onSuccess)) =
      [selectStrategy
         (truthy (isWebpackEnabledOf E configuration appName options))
         watchMode].
Proof.
  intros Hv.
  destruct (runBuild_path E inputs options watchMode isDebugEnabled onSuccess)
    as [ | | | | | |c cfg app ts d Hc Hreach Hd]; try discriminate.
  exists cfg, app, ts. split; [assumption|].
  cbn [trace outcome fst snd] in *. rewrite invoked_app. cbn [preamble invoked strategyOf List.app].
  destruct Hd; cbn [trace outcome fst snd] in *; try discriminate;
    repeat match goal with
           | H : truthy _ = _ |- _ => rewrite H; clear H
           | H : watchMode = _ |- _ => rewrite H; clear H
           end; reflexivity.
Qed.

(** C4.  Wherever a compilation strategy is invoked in a run of [runBuild],
    the cleanup of the output directory and then the copy of the assets have
    been called before it, in that order, and both have returned. *)
Theorem cleanup_and_assets_precede_dispatch before ev after :
  trace (runBuild E inputs options watchMode isDebugEnabled onSuccess) = before ++ ev :: after ->
  strategyOf ev <> None ->
  exists configuration appName dir l1 l2 l3,
    before =
      l1 ++ DeleteOutDirIfEnabled configuration appName dir ::
      l2 ++ CopyAssets configuration appName dir :: l3 /\
    workspaceUtils_deleteOutDirIfEnabled E configuration appName dir = Return tt /\
    assetsManager_copyAssets E configuration appName dir = Return tt.
Proof.
  intros Ht Hev.
  destruct (runBuild_path E inputs options watchMode isDebugEnabled onSuccess)
    as [ | | | | | |c cfg app ts d Hc Hreach Hd]; cbn [trace fst preamble] in Ht.
  1-6: exfalso; eapply invoked_split_nonempty; [exact Hev|];
       rewrite <- Ht; reflexivity.
  destruct Hreach as (c' & a & _ & _ & _ & _ & _ & Hdel & Hcp).
  assert (Hsplit :
            (exists mid s, trace d = mid ++ [s] /\ invoked mid = []) \/
            invoked (trace d) = []).
  { destruct Hd; cbn [trace fst];
      first [ right; reflexivity
            | left; eexists [], _; split; reflexivity
            | left; eexists [_], _; split; reflexivity ]. }
  destruct Hsplit as [(mid & s & Hd' & Hmid)|Hnone].
  - rewrite Hd', app_assoc in Ht.
    apply split_at_strategy in Ht; [|exact Hmid|reflexivity|exact Hev].
    exists cfg, app, (outDirOf E ts),
      [LoaderLoad (value c);
       GetByConfigFilename (pathToTsconfigOf E cfg app options)], [], mid.
    split; [|split; assumption]. now rewrite Ht.
  - exfalso. eapply invoked_split_nonempty; [exact Hev|].
    rewrite <- Ht, invoked_app, Hnone. reflexivity.
Qed.

(** C5.  [handle] never throws: it always returns.  When [runBuild] throws,
    [handle] prints one formatted message after the calls [runBuild] made
    (through [console.log] with the error prefix for an [Error], through
    [console.error] for any other thrown value) and nothing else. *)
Theorem handle_catches_every_error :
  outcome (handle E inputs options) = Return tt /\
  match outcome (runBuild E inputs options (watchModeOf options) false None) with
  | Return _ =>
      trace (handle E inputs options) =
      trace (runBuild E inputs options (watchModeOf options) false None)
  | Throw (ErrorInstance errName message) =>
      trace (handle E inputs options) =
      trace (runBuild E inputs options (watchModeOf options) false None) ++
      [ConsoleLog (newline ++ ERROR_PREFIX E ++ " " ++ message ++ newline)%string]
  | Throw (ThrownValue v) =>
      trace (handle E inputs options) =
      trace (runBuild E inputs options (watchModeOf options) false None) ++
      [ConsoleError (newline ++ chalk_red E v ++ newline)%string]
  end.
Proof.
  unfold handle.
  destruct (runBuild E inputs options (watchModeOf options) false None)
    as [t [v|[errName message|v]]]; cbn; rewrite ?app_nil_r; auto.
Qed.

(** C6 (as amended).  The directory passed to the cleanup and to the asset
    copy is the output directory that the tsconfig declares when it declares
    a non-empty one, and [defaultOutDir] when it declares none or declares
    the empty string. *)
Theorem outDir_is_declared_nonempty_or_default configuration appName dir :
  In (DeleteOutDirIfEnabled configuration appName dir) (trace (runBuild E inputs options watchMode isDebugEnabled onSuccess)) \/
  In (CopyAssets configuration appName dir) (trace (runBuild E inputs options watchMode isDebugEnabled onSuccess)) ->
  exists tsConfig,
    tsConfigProvider_getByConfigFilename E
      (pathToTsconfigOf E configuration appName options) = Return tsConfig /\
    (forall s, outDir tsConfig = Some s -> s <> EmptyString -> dir = s) /\
    (outDir tsConfig = None \/ outDir tsConfig = Some EmptyString ->
     dir = defaultOutDir E).
Proof.
  assert (Hdir : forall ts, 
            (forall s, outDir ts = Some s -> s <> EmptyString -> outDirOf E ts = s) /\
            (outDir ts = None \/ outDir ts = Some EmptyString ->
             outDirOf E ts = defaultOutDir E)).
  { intros [[s|]]; unfold outDirOf; cbn; split.
    - intros s' [= <-] Hs. apply String.eqb_neq in Hs. now rewrite Hs.
    - intros [H|[= ->]]; [discriminate|reflexivity].
    - discriminate.
    - reflexivity. }
  intros Hin.
  destruct (runBuild_path E inputs options watchMode isDebugEnabled onSuccess)
    as [ | | |c cfg a e Hc Hl Ha Ht|c cfg a ts e Hc Hl Ha Ht Hd
        |c cfg a ts e Hc Hl Ha Ht Hd Hp|c cfg app ts d Hc Hreach Hd];
    cbn [trace fst preamble] in Hin.
  1-4: destruct Hin as [Hin|Hin]; cbn in Hin;
       repeat (destruct Hin as [Hin|Hin]; [discriminate|]); contradiction.
  - destruct Hin as [Hin|Hin]; cbn in Hin;
      repeat (destruct Hin as [Hin|Hin]; try discriminate); try contradiction.
    injection Hin as <- <- <-. exists ts. split; [assumption|apply Hdir].
  - assert (Hev : (configuration, appName, dir) = (cfg, value a, outDirOf E ts)).
    { destruct Hin as [Hin|Hin]; cbn in Hin;
        repeat (destruct Hin as [Hin|Hin]; try discriminate); try contradiction;
        now injection Hin as <- <- <-. }
    injection Hev as -> -> ->. exists ts. split; [assumption|apply Hdir].
  - assert (Hev : (configuration, appName, dir) = (cfg, app, outDirOf E ts)).
    { destruct Hin as [Hin|Hin]; apply in_app_or in Hin as [Hin|Hin];
        try (apply (dispatch_no_cleanup _ _ _ _ _ _ _ _ _ Hd) in Hin; contradiction);
        cbn in Hin;
        repeat (destruct Hin as [Hin|Hin]; try discriminate); try contradiction;
        now injection Hin as <- <- <-. }
    injection Hev as -> -> ->. exists ts.
    destruct Hreach as (c' & a & _ & _ & _ & _ & Ht & _).
    split; [assumption|apply Hdir].
Qed.

(** C7.  When the options hold no element named [config], or the inputs no
    element named [app], [runBuild] throws and invokes no strategy.  The
    error is the [TypeError] of reading [value] of [undefined]; the one
    exception is a run in which [config] is present and the loader itself
    throws, which happens before [app] is looked up. *)
Theorem missing_required_field_raises :
  (forall o, In o options -> name o <> "config") \/
  (forall i, In i inputs -> name i <> "app") ->
  exists e,
    outcome (runBuild E inputs options watchMode isDebugEnabled onSuccess) = Throw e /\
    invoked (trace (runBuild E inputs options watchMode isDebugEnabled onSuccess)) = [] /\
    (e = typeErrorRead "value" JUndefined \/
     exists configOption,
       find (fun option => name option =? "config") options = Some configOption /\
       loader_load E (value configOption) = Throw e).
Proof.
  intros Hmiss.
  assert (Hnone :
            find (fun option => name option =? "config") options = None \/
            find (fun input => name input =? "app") inputs = None).
  { destruct Hmiss as [H|H]; [left|right]; now apply find_name_none. }
  clear Hmiss.
  destruct (runBuild_path E inputs options watchMode isDebugEnabled onSuccess)
    as [ |c e Hc Hl|c cfg Hc Hl Ha|c cfg a e Hc Hl Ha Ht|c cfg a ts e Hc Hl Ha Ht Hd
        |c cfg a ts e Hc Hl Ha Ht Hd Hp|c cfg app ts d Hc Hreach Hd];
    cbn [trace outcome fst snd].
  - eexists; repeat split; auto.
  - eexists; repeat split; eauto.
  - eexists; repeat split; auto.
  - destruct Hnone; congruence.
  - destruct Hnone; congruence.
  - destruct Hnone; congruence.
  - destruct Hreach as (c' & a & Hc' & _ & Ha & _). destruct Hnone; congruence.
Qed.

(** C9.  In the webpack branch the default path is
    [configuration.compilerOptions.webpackConfigPath].  Without a
    [compilerOptions] section the run throws the [TypeError] of that read,
    before any [require] and any strategy.  With the section, a failed load
    is swallowed (and the bundling strategy runs on the fallback factory)
    exactly when the resolved path is that value, and rethrown otherwise. *)
Theorem default_path_is_read_unchecked configuration appName tsConfig :
  reachesDispatch E inputs options configuration appName tsConfig ->
  truthy (isWebpackEnabledOf E configuration appName options) = true ->
  (getProp configuration "compilerOptions" = Return JUndefined ->
   outcome (runBuild E inputs options watchMode isDebugEnabled onSuccess) =
     Throw (typeErrorRead "webpackConfigPath" JUndefined) /\
   existsb isRequire
     (trace (runBuild E inputs options watchMode isDebugEnabled onSuccess)) = false /\
   invoked (trace (runBuild E inputs options watchMode isDebugEnabled onSuccess)) = []) /\
  (forall compilerOptions defaultPath p e,
     getProp configuration "compilerOptions" = Return compilerOptions ->
     getProp compilerOptions "webpackConfigPath" = Return defaultPath ->
     webpackPathOf E configuration appName options = JStr p ->
     require E (join E (cwd E) p) = Throw e ->
     (defaultPath = JStr p ->
      outcome (runBuild E inputs options watchMode isDebugEnabled onSuccess) =
        webpackCompiler_run E configuration (WebpackFactory emptyConfigFactory)
          (pathToTsconfigOf E configuration appName options) appName
          isDebugEnabled watchMode onSuccess /\
      invoked (trace (runBuild E inputs options watchMode isDebugEnabled onSuccess))
        = [Bundling]) /\
     (defaultPath <> JStr p ->
      outcome (runBuild E inputs options watchMode isDebugEnabled onSuccess) =
        Throw e /\
      invoked (trace (runBuild E inputs options watchMode isDebugEnabled onSuccess))
        = [])).
Proof.
  intros Hreach Hw. split.
  - intros Hco.
    destruct (runBuild_reaches E inputs options watchMode isDebugEnabled
                onSuccess _ _ _ Hreach) as [file Hrun].
    rewrite Hrun. unfold dispatch.
    rewrite Hw, bind_lift, Hco, bind_lift. cbn. auto.
  - intros co d p e Hco Hd Hp Hreq.
    destruct (runBuild_load_failure E inputs options watchMode isDebugEnabled
              onSuccess _ _ _ _ _ _ _ Hreach Hw Hp Hco Hd Hreq)
      as [file Hrun].
    rewrite Hrun. clear Hrun. cbn [trace outcome fst snd]. split; intros Hdef.
    + apply strictEq_JStr in Hdef. rewrite Hdef. split; reflexivity.
    + destruct (strictEq (JStr p) d) eqn:Hs;
        [apply strictEq_JStr in Hs; contradiction|]. split; reflexivity.
Qed.

(** [handle] passes [watchModeOf options] to [runBuild], and this flag is
    the truthiness of the value of the first element of the options named
    [watch]. *)
Theorem watch_mode_is_first_watch_option :
  handle E inputs options =
    tryCatch
      (bind (runBuild E inputs options (watchModeOf options) false None)
         (fun _ => ret tt))
      (report E) /\
  (watchModeOf options = true <->
   exists o,
     find (fun option => name option =? "watch") options = Some o /\
     truthy (value o) = true).
Proof.
  split; [reflexivity|]. unfold watchModeOf.
  destruct (find (fun option => name option =? "watch") options) as [o|].
  - split; [intros H; now exists o|intros (o' & [= <-] & H); exact H].
  - split; [discriminate|intros (o' & [=] & _)].
Qed.

End Claims.

(** When names are unique in the options list, the flag is true exactly when
    the list holds an element named [watch] with a truthy value. *)
Lemma watch_mode_with_unique_names (options : list Input) :
  (forall o o', In o options -> In o' options ->
                name o = "watch" -> name o' = "watch" -> o = o') ->
  (watchModeOf options = true <->
   exists o, In o options /\ name o = "watch" /\ truthy (value o) = true).
Proof.
  intros Huniq. unfold watchModeOf. split.
  - destruct (find (fun option => name option =? "watch") options) as [o|] eqn:Hf;
      [|discriminate].
    intros Ht. apply find_name_some in Hf as [Hin Hn]. now exists o.
  - intros (o & Hin & Hn & Ht).
    rewrite (find_unique "watch" options o Hin Hn); [exact Ht|].
    intros o' Hin' Hn'. now apply Huniq.
Qed.

(** C10.  The watch-mode flag that [handle] passes to [runBuild] is true if
    and only if the options list contains an element named [watch] whose
    value is truthy; without such an element, or with an element named
    [watch] whose value is falsy, the flag is false.  Names are unique in an
    options list, which callers keep: at most one element is named
    [watch]. *)
Theorem watch_mode_iff_truthy_watch_option E inputs options :
  (forall o o', In o options -> In o' options ->
                name o = "watch" -> name o' = "watch" -> o = o') ->
  handle E inputs options =
    tryCatch
      (bind (runBuild E inputs options (watchModeOf options) false None)
         (fun _ => ret tt))
      (report E) /\
  (watchModeOf options = true <->
   exists o, In o options /\ name o = "watch" /\ truthy (value o) = true) /\
  ((forall o, In o options -> name o <> "watch") ->
   watchModeOf options = false) /\
  (forall o, In o options -> name o = "watch" -> truthy (value o) = false ->
             watchModeOf options = false).
Proof.
  intros Huniq. split; [reflexivity|]. split; [|split].
  - now apply watch_mode_with_unique_names.
  - intros Hnone. unfold watchModeOf. now rewrite (find_name_none _ _ Hnone).
  - intros o Hin Hn Hf. unfold watchModeOf.
    rewrite (find_unique "watch" options o Hin Hn); [exact Hf|].
    intros o' Hin' Hn'. now apply Huniq.
Qed.

(** *** Concrete runs *)

(** C1, at a concrete invocation. *)
Lemma fallback_factory_returns_empty_configuration_witness :
  require (env webpackConfiguration None)
    (join (env webpackConfiguration None) (cwd (env webpackConfiguration None))
       "webpack.config.js") = Throw moduleNotFound /\
  exists factory,
    getWebpackConfigFactoryByPath (env webpackConfiguration None)
      (JStr "webpack.config.js") (JStr "webpack.config.js") =
      ([RequireFile "/work/webpack.config.js"], Return (WebpackFactory factory)) /\
    forall fields, factory (JObj fields) = Return (JObj []).
Proof.
  split; [reflexivity|].
  apply (fallback_factory_returns_empty_configuration
           (env webpackConfiguration None) "webpack.config.js" moduleNotFound).
  reflexivity.
Defined.

(** C1 as stated fails: the fallback factory applied to a base configuration
    with a [mode] field returns the empty object, not that configuration. *)
Lemma fallback_factory_is_not_identity :
  exists factory,
    outcome
      (getWebpackConfigFactoryByPath (env webpackConfiguration None)
         (JStr "webpack.config.js") (JStr "webpack.config.js")) =
      Return (WebpackFactory factory) /\
    factory baseConfiguration = Return (JObj []) /\
    factory baseConfiguration <> Return baseConfiguration.
Proof.
  exists emptyConfigFactory. repeat split; discriminate.
Qed.

(** The fixture environments let every run with a [config] option reach the
    dispatch. *)
Lemma reaches_fixture configuration declared opts :
  find (fun option => name option =? "config") opts
    = Some (mkInput "config" (JStr "nest-cli.json")) ->
  reachesDispatch (env configuration declared) inputs opts configuration
    (JStr "api") (mkTsConfig declared).
Proof.
  intros H. exists (mkInput "config" (JStr "nest-cli.json")), (mkInput "app" (JStr "api")).
  repeat split; assumption || reflexivity.
Defined.

(** C2, at a concrete invocation: the user asks for [custom.webpack.js], the
    configuration names [webpack.config.js], and no file exists. *)
Lemma explicit_path_load_failure_propagates_witness :
  outcome
    (runBuild (env webpackConfiguration None) inputs explicitPathOptions false
       false None) = Throw moduleNotFound /\
  invoked
    (trace
       (runBuild (env webpackConfiguration None) inputs explicitPathOptions
          false false None)) = [] /\
  In (RequireFile "/work/custom.webpack.js")
    (trace
       (runBuild (env webpackConfiguration None) inputs explicitPathOptions
          false false None)).
Proof.
  apply (explicit_path_load_failure_propagates
           (env webpackConfiguration None) inputs explicitPathOptions false
           false None webpackConfiguration (JStr "api") (mkTsConfig None)
           "custom.webpack.js" webpackCompilerOptions
           (JStr "webpack.config.js") moduleNotFound).
  - apply reaches_fixture. reflexivity.
  - reflexivity.
  - reflexivity.
  - reflexivity.
  - reflexivity.
  - discriminate.
  - reflexivity.
Defined.

(** C2 as stated fails: the configuration names [custom.webpack.js], which
    is not the default [webpack.config.js], no option overrides it and no
    file exists.  The resolved path is then the very value line 102 reads
    as the default path, the failure is swallowed and the webpack compiler
    runs on the fallback factory. *)
Lemma declared_path_load_failure_is_swallowed :
  truthy
    (isWebpackEnabledOf (env declaredPathConfiguration None)
       declaredPathConfiguration (JStr "api") options) = true /\
  webpackPathOf (env declaredPathConfiguration None) declaredPathConfiguration
    (JStr "api") options = JStr "custom.webpack.js" /\
  JStr "custom.webpack.js" <> JStr "webpack.config.js" /\
  require (env declaredPathConfiguration None) "/work/custom.webpack.js"
    = Throw moduleNotFound /\
  runBuild (env declaredPathConfiguration None) inputs options false false None =
    ([LoaderLoad (JStr "nest-cli.json");
      GetByConfigFilename (JStr "tsconfig.build.json");
      DeleteOutDirIfEnabled declaredPathConfiguration (JStr "api") "dist";
      CopyAssets declaredPathConfiguration (JStr "api") "dist";
      RequireFile "/work/custom.webpack.js";
      WebpackCompilerRun declaredPathConfiguration
        (WebpackFactory emptyConfigFactory) (JStr "tsconfig.build.json")
        (JStr "api") false false None],
     Return JUndefined) /\
  ~ (outcome
       (runBuild (env declaredPathConfiguration None) inputs options false
          false None) = Throw moduleNotFound /\
     invoked
       (trace
          (runBuild (env declaredPathConfiguration None) inputs options false
             false None)) = []).
Proof.
  repeat split; try discriminate.
  intros [H _]. discriminate H.
Qed.

(** C3, at three concrete invocations: one-shot, watching and bundling. *)
Lemma successful_run_invokes_exactly_one_strategy_witness :
  (exists configuration appName tsConfig,
     reachesDispatch (env plainConfiguration None) inputs options
       configuration appName tsConfig /\
     invoked
       (trace (runBuild (env plainConfiguration None) inputs options false
                 false None)) =
     [selectStrategy
        (truthy (isWebpackEnabledOf (env plainConfiguration None)
                   configuration appName options)) false]) /\
  (exists configuration appName tsConfig,
     reachesDispatch (env plainConfiguration None) inputs options
       configuration appName tsConfig /\
     invoked
       (trace (runBuild (env plainConfiguration None) inputs options true
                 false None)) =
     [selectStrategy
        (truthy (isWebpackEnabledOf (env plainConfiguration None)
                   configuration appName options)) true]) /\
  (exists configuration appName tsConfig,
     reachesDispatch (env webpackConfiguration None) inputs options
       configuration appName tsConfig /\
     invoked
       (trace (runBuild (env webpackConfiguration None) inputs options true
                 false None)) =
     [selectStrategy
        (truthy (isWebpackEnabledOf (env webpackConfiguration None)
                   configuration appName options)) true]).
Proof.
  repeat split.
  - apply (successful_run_invokes_exactly_one_strategy
             (env plainConfiguration None) inputs options false false None
             JUndefined).
    reflexivity.
  - apply (successful_run_invokes_exactly_one_strategy
             (env plainConfiguration None) inputs options true false None
             JUndefined).
    reflexivity.
  - apply (successful_run_invokes_exactly_one_strategy
             (env webpackConfiguration None) inputs options true false None
             JUndefined).
    reflexivity.
Defined.

(** The whole of a one-shot run. *)
Example one_shot_run :
  runBuild (env plainConfiguration None) inputs options false false None =
  ([LoaderLoad (JStr "nest-cli.json");
    GetByConfigFilename (JStr "tsconfig.build.json");
    DeleteOutDirIfEnabled plainConfiguration (JStr "api") "dist";
    CopyAssets plainConfiguration (JStr "api") "dist";
    CompilerRun plainConfiguration (JStr "tsconfig.build.json") (JStr "api") None],
   Return JUndefined).
Proof. reflexivity. Qed.

(** The same invocation in watch mode. *)
Example watch_run :
  invoked (trace (runBuild (env plainConfiguration None) inputs options true false None))
  = [Watching].
Proof. reflexivity. Qed.

(** Webpack enabled, default path, no file: the fallback factory goes to the
    webpack compiler. *)
Example bundling_run_with_fallback :
  runBuild (env webpackConfiguration None) inputs options false false None =
  ([LoaderLoad (JStr "nest-cli.json");
    GetByConfigFilename (JStr "tsconfig.build.json");
    DeleteOutDirIfEnabled webpackConfiguration (JStr "api") "dist";
    CopyAssets webpackConfiguration (JStr "api") "dist";
    RequireFile "/work/webpack.config.js";
    WebpackCompilerRun webpackConfiguration (WebpackFactory emptyConfigFactory)
      (JStr "tsconfig.build.json") (JStr "api") false false None],
   Return JUndefined).
Proof. reflexivity. Qed.

(** C4, at the one-shot run. *)
Lemma cleanup_and_assets_precede_dispatch_witness :
  exists configuration appName dir l1 l2 l3,
    [LoaderLoad (JStr "nest-cli.json");
     GetByConfigFilename (JStr "tsconfig.build.json");
     DeleteOutDirIfEnabled plainConfiguration (JStr "api") "dist";
     CopyAssets plainConfiguration (JStr "api") "dist"] =
      l1 ++ DeleteOutDirIfEnabled configuration appName dir ::
      l2 ++ CopyAssets configuration appName dir :: l3 /\
    workspaceUtils_deleteOutDirIfEnabled (env plainConfiguration None)
      configuration appName dir = Return tt /\
    assetsManager_copyAssets (env plainConfiguration None) configuration
      appName dir = Return tt.
Proof.
  apply (cleanup_and_assets_precede_dispatch (env plainConfiguration None)
           inputs options false false None
           [LoaderLoad (JStr "nest-cli.json");
            GetByConfigFilename (JStr "tsconfig.build.json");
            DeleteOutDirIfEnabled plainConfiguration (JStr "api") "dist";
            CopyAssets plainConfiguration (JStr "api") "dist"]
           (CompilerRun plainConfiguration (JStr "tsconfig.build.json")
              (JStr "api") None)
           []).
  - reflexivity.
  - discriminate.
Defined.

(** C6, at a tsconfig that declares [build]. *)
Lemma outDir_is_declared_nonempty_or_default_witness :
  exists tsConfig,
    tsConfigProvider_getByConfigFilename (env plainConfiguration (Some "build"))
      (pathToTsconfigOf (env plainConfiguration (Some "build"))
         plainConfiguration (JStr "api") options) = Return tsConfig /\
    (forall s, outDir tsConfig = Some s -> s <> EmptyString -> "build" = s) /\
    (outDir tsConfig = None \/ outDir tsConfig = Some EmptyString ->
     "build" = defaultOutDir (env plainConfiguration (Some "build"))).
Proof.
  apply (outDir_is_declared_nonempty_or_default
           (env plainConfiguration (Some "build")) inputs options false false
           None plainConfiguration (JStr "api") "build").
  left. cbn. auto.
Defined.

(** C6 as stated fails: a tsconfig that declares the empty string as its
    output directory makes the run pass [dist], the default, to the cleanup
    and to the asset copy. *)
Lemma empty_outDir_falls_back_to_default :
  tsConfigProvider_getByConfigFilename (env plainConfiguration (Some EmptyString))
    (JStr "tsconfig.build.json") = Return (mkTsConfig (Some EmptyString)) /\
  runBuild (env plainConfiguration (Some EmptyString)) inputs options false
    false None =
  ([LoaderLoad (JStr "nest-cli.json");
    GetByConfigFilename (JStr "tsconfig.build.json");
    DeleteOutDirIfEnabled plainConfiguration (JStr "api") "dist";
    CopyAssets plainConfiguration (JStr "api") "dist";
    CompilerRun plainConfiguration (JStr "tsconfig.build.json") (JStr "api") None],
   Return JUndefined) /\
  "dist" <> EmptyString.
Proof. repeat split. discriminate. Qed.

(** C7, at an invocation without options. *)
Lemma missing_required_field_raises_witness :
  exists e,
    outcome (runBuild (env plainConfiguration None) inputs [] false false None)
      = Throw e /\
    invoked
      (trace (runBuild (env plainConfiguration None) inputs [] false false None))
      = [] /\
    (e = typeErrorRead "value" JUndefined \/
     exists configOption,
       find (fun option => name option =? "config") [] = Some configOption /\
       loader_load (env plainConfiguration None) (value configOption) = Throw e).
Proof.
  apply (missing_required_field_raises (env plainConfiguration None) inputs []
           false false None).
  left. intros o [].
Defined.

(** C9, at a configuration without [compilerOptions], webpack being switched
    on from the command line. *)
Lemma default_path_is_read_unchecked_witness :
  outcome
    (runBuild (env bareConfiguration None) inputs webpackOptions false false None)
    = Throw (typeErrorRead "webpackConfigPath" JUndefined) /\
  existsb isRequire
    (trace
       (runBuild (env bareConfiguration None) inputs webpackOptions false false
          None)) = false /\
  invoked
    (trace
       (runBuild (env bareConfiguration None) inputs webpackOptions false false
          None)) = [].
Proof.
  apply (default_path_is_read_unchecked (env bareConfiguration None) inputs
           webpackOptions false false None bareConfiguration (JStr "api")
           (mkTsConfig None)).
  - apply reaches_fixture. reflexivity.
  - reflexivity.
  - reflexivity.
Defined.

(** C10, at the options of a user who asks for watch mode. *)
Lemma watch_mode_iff_truthy_watch_option_witness :
  handle (env plainConfiguration None) inputs MoreFixtures.watchOptions =
    tryCatch
      (bind
         (runBuild (env plainConfiguration None) inputs MoreFixtures.watchOptions
            (watchModeOf MoreFixtures.watchOptions) false None)
         (fun _ => ret tt))
      (report (env plainConfiguration None)) /\
  (watchModeOf MoreFixtures.watchOptions = true <->
   exists o,
     In o MoreFixtures.watchOptions /\ name o = "watch" /\
     truthy (value o) = true) /\
  ((forall o, In o MoreFixtures.watchOptions -> name o <> "watch") ->
   watchModeOf MoreFixtures.watchOptions = false) /\
  (forall o,
     In o MoreFixtures.watchOptions -> name o = "watch" ->
     truthy (value o) = false -> watchModeOf MoreFixtures.watchOptions = false).
Proof.
  apply (watch_mode_iff_truthy_watch_option (env plainConfiguration None) inputs
           MoreFixtures.watchOptions).
  intros o o' [<-|[<-|[]]] [<-|[<-|[]]] Hn Hn'; try discriminate; reflexivity.
Defined.

(** Where the options list breaks the uniqueness of names, the first element
    named [watch] decides: with a falsy one before a truthy one, the flag is
    false. *)
Remark watch_option_after_falsy_one_is_ignored :
  ~ (watchModeOf watchOffThenOn = true <->
     exists o, In o watchOffThenOn /\ name o = "watch" /\ truthy (value o) = true).
Proof.
  intros [_ H].
  assert (Hw : watchModeOf watchOffThenOn = true).
  { apply H. exists (mkInput "watch" (JBool true)). cbn. auto. }
  discriminate Hw.
Qed.

End BuildActionFacts.

(** ** Further facts on the build action *)

Module BuildActionCoverage.

Import BuildAction InputFacts Fixtures MoreFixtures RunReading BuildActionFacts.
Local Open Scope list_scope.

(** Splits a membership in a trace that is written out into its cases. *)
Ltac each_event Hin :=
  cbn in Hin;
  repeat match type of Hin with
         | _ \/ _ => destruct Hin as [Hin|Hin]
         end;
  try contradiction.

Lemma joinCwd_string E v file :
  joinCwd E v = Return file -> exists p, v = JStr p /\ file = join E (cwd E) p.
Proof.
  destruct v; cbn; intros H; try discriminate.
  injection H as <-. now eexists.
Qed.

Lemma dropped_throw o e : dropped o = Throw e -> o = Throw e.
Proof. destruct o; cbn; congruence. Qed.

Lemma in_preamble E options file cfg app ts ev :
  In ev (preamble E options file cfg app ts) ->
  strategyOf ev = None /\ isRequire ev = false.
Proof. intros Hin. each_event Hin; subst ev; split; reflexivity. Qed.

Section Coverage.

Variable E : Env.
Variables inputs options : list Input.
Variables watchMode isDebugEnabled : bool.
Variable onSuccess : option Callback.

(** The trace of a dispatch: at most a [require], then at most one strategy
    call, whose answer is the outcome. *)
Lemma dispatch_shape configuration appName d :
  DispatchPath E options watchMode isDebugEnabled onSuccess configuration
    appName d ->
  exists mid,
    invoked mid = [] /\
    (trace d = mid \/
     exists ev, trace d = mid ++ [ev] /\ strategyOf ev <> None /\
                outcome d = strategyAnswer E ev).
Proof.
  intros Hd.
  destruct Hd as [ | | | | |co dp file loaded|co dp file e|co dp file e];
    cbn [trace outcome fst snd].
  1-2: exists []; split; [reflexivity|right; eexists; repeat split; discriminate].
  1-3: exists []; split; [reflexivity|left; reflexivity].
  - exists [RequireFile file]; split;
      [reflexivity|right; eexists; repeat split; discriminate].
  - exists [RequireFile file]; split; [reflexivity|left; reflexivity].
  - exists [RequireFile file]; split;
      [reflexivity|right; eexists; repeat split; discriminate].
Qed.

(** X1.  No run of [runBuild], returning or throwing, invokes more than one
    compilation strategy. *)
Theorem at_most_one_strategy_in_any_run :
  List.length
    (invoked (trace (runBuild E inputs options watchMode isDebugEnabled onSuccess)))
  <= 1.
Proof.
  destruct (runBuild_path E inputs options watchMode isDebugEnabled onSuccess)
    as [ | | | | | |c cfg app ts d Hc Hreach Hd]; cbn; auto.
  destruct (dispatch_shape _ _ _ Hd) as (mid & Hmid & [Ht|(ev & Ht & Hev & _)]);
    rewrite Ht, ?invoked_app, Hmid; cbn; auto.
  destruct (strategyOf ev); cbn; auto.
Qed.

(** X2.  A strategy call is the last call of a run: [runBuild] calls no
    collaborator after the compiler it dispatched to, whether that compiler
    returns or throws. *)
Theorem strategy_call_is_the_last_call before ev after :
  trace (runBuild E inputs options watchMode isDebugEnabled onSuccess) =
    before ++ ev :: after ->
  strategyOf ev <> None ->
  after = [].
Proof.
  intros Ht Hev.
  destruct (runBuild_path E inputs options watchMode isDebugEnabled onSuccess)
    as [ | | | | | |c cfg app ts d Hc Hreach Hd]; cbn [trace fst preamble] in Ht.
  1-6: exfalso; eapply invoked_split_nonempty; [exact Hev|];
       rewrite <- Ht; reflexivity.
  destruct (dispatch_shape _ _ _ Hd) as (mid & Hmid & [Hd'|(s & Hd' & _ & _)]);
    rewrite Hd' in Ht.
  - exfalso. eapply invoked_split_nonempty; [exact Hev|].
    rewrite <- Ht, invoked_app, Hmid. reflexivity.
  - rewrite app_assoc in Ht. pose proof Ht as Hsplit.
    apply split_at_strategy in Hsplit; [|exact Hmid|reflexivity|exact Hev].
    subst before. apply app_inv_head in Ht. now injection Ht.
Qed.

(** X3.  The outcome of a run that got to invoke a strategy is the answer of
    that strategy: an error of the compiler is thrown on unchanged and no
    other strategy is tried; the result of the webpack compiler is returned;
    after the watch or the one-shot compiler returns, the run returns
    [undefined]. *)
Theorem outcome_is_the_answer_of_the_strategy ev :
  In ev (trace (runBuild E inputs options watchMode isDebugEnabled onSuccess)) ->
  strategyOf ev <> None ->
  outcome (runBuild E inputs options watchMode isDebugEnabled onSuccess) =
    strategyAnswer E ev.
Proof.
  intros Hin Hev.
  destruct (runBuild_path E inputs options watchMode isDebugEnabled onSuccess)
    as [ | | | | | |c cfg app ts d Hc Hreach Hd]; cbn [trace outcome fst snd] in *.
  1-6: each_event Hin; subst ev; now contradiction Hev.
  apply in_app_or in Hin as [Hin|Hin];
    [apply in_preamble in Hin as [Hs _]; contradiction|].
  destruct Hd; each_event Hin; subst ev; try reflexivity; now contradiction Hev.
Qed.

(** X4.  Every strategy is called with the configuration that the loader
    returned, the tsconfig path resolved from it, the application name taken
    from the inputs, the callback of the caller, and, for the webpack
    compiler, the debug and watch flags of the caller. *)
Theorem strategy_receives_the_resolved_values ev :
  In ev (trace (runBuild E inputs options watchMode isDebugEnabled onSuccess)) ->
  strategyOf ev <> None ->
  exists configuration appName tsConfig,
    reachesDispatch E inputs options configuration appName tsConfig /\
    match ev with
    | WebpackCompilerRun c _ p a d w cb =>
        c = configuration /\
        p = pathToTsconfigOf E configuration appName options /\
        a = appName /\ d = isDebugEnabled /\ w = watchMode /\ cb = onSuccess
    | WatchCompilerRun c p a cb | CompilerRun c p a cb =>
        c = configuration /\
        p = pathToTsconfigOf E configuration appName options /\
        a = appName /\ cb = onSuccess
    | _ => False
    end.
Proof.
  intros Hin Hev.
  destruct (runBuild_path E inputs options watchMode isDebugEnabled onSuccess)
    as [ | | | | | |c cfg app ts d Hc Hreach Hd]; cbn [trace outcome fst snd] in *.
  1-6: each_event Hin; subst ev; now contradiction Hev.
  apply in_app_or in Hin as [Hin|Hin];
    [apply in_preamble in Hin as [Hs _]; contradiction|].
  exists cfg, app, ts. split; [assumption|].
  destruct Hd; each_event Hin; subst ev; try (now contradiction Hev);
    repeat split; reflexivity.
Qed.

(** The flags and the callback of a run are handed on as they came. *)
Lemma run_hands_flags_on ev :
  In ev (trace (runBuild E inputs options watchMode isDebugEnabled onSuccess)) ->
  match ev with
  | WebpackCompilerRun _ _ _ _ d w cb =>
      d = isDebugEnabled /\ w = watchMode /\ cb = onSuccess
  | WatchCompilerRun _ _ _ cb | CompilerRun _ _ _ cb => cb = onSuccess
  | _ => True
  end.
Proof.
  intros Hin.
  destruct (runBuild_path E inputs options watchMode isDebugEnabled onSuccess)
    as [ | | | | | |c cfg app ts d Hc Hreach Hd]; cbn [trace outcome fst snd] in *.
  1-6: each_event Hin; subst ev; exact I.
  apply in_app_or in Hin as [Hin|Hin].
  - each_event Hin; subst ev; exact I.
  - destruct Hd; each_event Hin; subst ev; repeat split; reflexivity.
Qed.

Lemma getProp_throw v p e : getProp v p = Throw e -> e = typeErrorRead p v.
Proof.
  destruct v; cbn; try discriminate; try congruence.
  destruct (lookupField p fields); discriminate.
Qed.

Lemma joinCwd_throw v e : joinCwd E v = Throw e -> e = typeErrorPathArg.
Proof. destruct v; cbn; congruence. Qed.

(** X6.  Errors are not wrapped: whenever [runBuild] throws, the error is
    either one of the [TypeError]s the action raises by itself (reading a
    property of [undefined] or [null], joining a path that is no string), or
    the very error thrown by the last collaborator it called. *)
Theorem every_error_is_own_or_of_the_last_collaborator e :
  outcome (runBuild E inputs options watchMode isDebugEnabled onSuccess) = Throw e ->
  ownTypeError e \/
  exists before ev,
    trace (runBuild E inputs options watchMode isDebugEnabled onSuccess) =
      before ++ [ev] /\
    collaboratorThrows E ev e.
Proof.
  intros He.
  destruct (runBuild_path E inputs options watchMode isDebugEnabled onSuccess)
    as [ |c e' Hc Hl|c cfg Hc Hl Ha|c cfg a e' Hc Hl Ha Ht
        |c cfg a ts e' Hc Hl Ha Ht Hd|c cfg a ts e' Hc Hl Ha Ht Hd Hp
        |c cfg app ts d Hc Hreach Hd];
    cbn [trace outcome fst snd preamble] in *.
  - injection He as <-. left. left. now eexists _, _.
  - injection He as <-. right. now exists [], (LoaderLoad (value c)).
  - injection He as <-. left. left. now eexists _, _.
  - injection He as <-. right. eexists [_], _. split; [reflexivity|exact Ht].
  - injection He as <-. right. eexists [_; _], _. split; [reflexivity|exact Hd].
  - injection He as <-. right. eexists [_; _; _], _. split; [reflexivity|exact Hp].
  - destruct Hd as [Hw Hm|Hw Hm|e' Hw Hco|co e' Hw Hco Hdp|co dp e' Hw Hco Hdp Hj
                   |co dp file loaded Hw Hco Hdp Hj Hr|co dp file e' Hw Hco Hdp Hj Hr Hs
                   |co dp file e' Hw Hco Hdp Hj Hr Hs];
      cbn [trace outcome fst snd] in *.
    + apply dropped_throw in He. right. eexists [_; _; _; _], _.
      split; [reflexivity|exact He].
    + apply dropped_throw in He. right. eexists [_; _; _; _], _.
      split; [reflexivity|exact He].
    + injection He as <-. apply getProp_throw in Hco. left. left.
      eexists _, _. exact Hco.
    + injection He as <-. apply getProp_throw in Hdp. left. left.
      eexists _, _. exact Hdp.
    + injection He as <-. apply joinCwd_throw in Hj. left. now right.
    + right. eexists [_; _; _; _; _], _. split; [reflexivity|exact He].
    + injection He as <-. right. eexists [_; _; _; _], _.
      split; [reflexivity|exact Hr].
    + right. eexists [_; _; _; _; _], _. split; [reflexivity|exact He].
Qed.

(** X7.  Assets are copied only once the cleanup has returned, and right
    after it, with the same configuration, application name and directory:
    a cleanup that throws leaves the assets uncopied. *)
Theorem assets_are_copied_right_after_cleanup_returned configuration appName dir :
  In (CopyAssets configuration appName dir)
    (trace (runBuild E inputs options watchMode isDebugEnabled onSuccess)) ->
  workspaceUtils_deleteOutDirIfEnabled E configuration appName dir = Return tt /\
  exists l1 l2,
    trace (runBuild E inputs options watchMode isDebugEnabled onSuccess) =
      l1 ++ DeleteOutDirIfEnabled configuration appName dir ::
      CopyAssets configuration appName dir :: l2.
Proof.
  intros Hin.
  destruct (runBuild_path E inputs options watchMode isDebugEnabled onSuccess)
    as [ |c e' Hc Hl|c cfg Hc Hl Ha|c cfg a e' Hc Hl Ha Ht
        |c cfg a ts e' Hc Hl Ha Ht Hd|c cfg a ts e' Hc Hl Ha Ht Hd Hp
        |c cfg app ts d Hc Hreach Hd];
    cbn [trace outcome fst snd] in *.
  1-5: each_event Hin; discriminate Hin.
  - each_event Hin; try discriminate Hin. injection Hin as <- <- <-.
    split; [exact Hd|]. now eexists [_; _], [].
  - apply in_app_or in Hin as [Hin|Hin];
      [|apply (dispatch_no_cleanup _ _ _ _ _ _ _ _ _ Hd) in Hin; contradiction].
    each_event Hin; try discriminate Hin. injection Hin as <- <- <-.
    destruct Hreach as (c' & a & _ & _ & _ & _ & _ & Hdel & _).
    split; [exact Hdel|]. now eexists [_; _], (trace d).
Qed.

(** X11.  Within one run the cleanup and the asset copy get the same
    configuration, application name and output directory. *)
Theorem cleanup_and_copy_get_the_same_arguments c1 a1 d1 c2 a2 d2 :
  In (DeleteOutDirIfEnabled c1 a1 d1)
    (trace (runBuild E inputs options watchMode isDebugEnabled onSuccess)) ->
  In (CopyAssets c2 a2 d2)
    (trace (runBuild E inputs options watchMode isDebugEnabled onSuccess)) ->
  c1 = c2 /\ a1 = a2 /\ d1 = d2.
Proof.
  intros H1 H2.
  destruct (runBuild_path E inputs options watchMode isDebugEnabled onSuccess)
    as [ |c e' Hc Hl|c cfg Hc Hl Ha|c cfg a e' Hc Hl Ha Ht
        |c cfg a ts e' Hc Hl Ha Ht Hd|c cfg a ts e' Hc Hl Ha Ht Hd Hp
        |c cfg app ts d Hc Hreach Hd];
    cbn [trace outcome fst snd] in *.
  1-5: each_event H2; discriminate H2.
  - each_event H1; try discriminate H1. each_event H2; try discriminate H2.
    injection H1 as <- <- <-. injection H2 as <- <- <-. auto.
  - apply in_app_or in H1 as [H1|H1];
      [|apply (dispatch_no_cleanup _ _ _ _ _ _ _ _ _ Hd) in H1; contradiction].
    apply in_app_or in H2 as [H2|H2];
      [|apply (dispatch_no_cleanup _ _ _ _ _ _ _ _ _ Hd) in H2; contradiction].
    each_event H1; try discriminate H1. each_event H2; try discriminate H2.
    injection H1 as <- <- <-. injection H2 as <- <- <-. auto.
Qed.

(** X8.  [require] is called only in the webpack branch of a run that got
    past cleanup and asset copy, and only on the current working directory
    joined with the resolved webpack configuration path, which is then a
    string. *)
Theorem require_is_called_on_the_resolved_path file :
  In (RequireFile file)
    (trace (runBuild E inputs options watchMode isDebugEnabled onSuccess)) ->
  exists configuration appName tsConfig p,
    reachesDispatch E inputs options configuration appName tsConfig /\
    truthy (isWebpackEnabledOf E configuration appName options) = true /\
    webpackPathOf E configuration appName options = JStr p /\
    file = join E (cwd E) p.
Proof.
  intros Hin.
  destruct (runBuild_path E inputs options watchMode isDebugEnabled onSuccess)
    as [ | | | | | |c cfg app ts d Hc Hreach Hd]; cbn [trace outcome fst snd] in *.
  1-6: each_event Hin; discriminate Hin.
  apply in_app_or in Hin as [Hin|Hin];
    [apply in_preamble in Hin as [_ Hr]; discriminate Hr|].
  destruct Hd as [Hw Hm|Hw Hm|e' Hw Hco|co e' Hw Hco Hdp|co dp e' Hw Hco Hdp Hj
                 |co dp f loaded Hw Hco Hdp Hj Hr|co dp f e' Hw Hco Hdp Hj Hr Hs
                 |co dp f e' Hw Hco Hdp Hj Hr Hs];
    each_event Hin; try discriminate Hin; injection Hin as ->;
    apply joinCwd_string in Hj as (p & Hp & ->);
    exists cfg, app, ts, p; auto.
Qed.

(** X9.  With webpack enabled and a resolved webpack configuration path that
    is no string (for instance [undefined], when neither the options nor the
    configuration give one), the run throws the [TypeError] of [path.join],
    which line 128 raises outside the [try]: no file is required, the
    fallback factory does not apply even if the default path is the same
    value, and no strategy is invoked. *)
Theorem webpack_path_that_is_no_string_throws configuration appName tsConfig
    compilerOptions defaultPath :
  reachesDispatch E inputs options configuration appName tsConfig ->
  truthy (isWebpackEnabledOf E configuration appName options) = true ->
  getProp configuration "compilerOptions" = Return compilerOptions ->
  getProp compilerOptions "webpackConfigPath" = Return defaultPath ->
  (forall p, webpackPathOf E configuration appName options <> JStr p) ->
  outcome (runBuild E inputs options watchMode isDebugEnabled onSuccess) =
    Throw typeErrorPathArg /\
  existsb isRequire
    (trace (runBuild E inputs options watchMode isDebugEnabled onSuccess)) = false /\
  invoked (trace (runBuild E inputs options watchMode isDebugEnabled onSuccess)) = [].
Proof.
  intros Hreach Hw Hco Hd Hp.
  destruct (runBuild_reaches E inputs options watchMode isDebugEnabled
              onSuccess _ _ _ Hreach) as [file Hrun].
  rewrite Hrun. clear Hrun. unfold dispatch.
  rewrite Hw, bind_lift, Hco, bind_lift, Hd.
  fold (webpackPathOf E configuration appName options).
  unfold getWebpackConfigFactoryByPath. rewrite bind_lift.
  destruct (webpackPathOf E configuration appName options) as [| | | |p|];
    try (cbn; auto; fail).
  now contradiction (Hp p).
Qed.

(** X10.  When the webpack configuration file loads, the loaded value goes
    to the webpack compiler unchanged, whatever the default path is, and the
    run yields the answer of the webpack compiler. *)
Theorem loaded_webpack_configuration_is_passed_unchanged configuration appName
    tsConfig compilerOptions defaultPath p loaded :
  reachesDispatch E inputs options configuration appName tsConfig ->
  truthy (isWebpackEnabledOf E configuration appName options) = true ->
  getProp configuration "compilerOptions" = Return compilerOptions ->
  getProp compilerOptions "webpackConfigPath" = Return defaultPath ->
  webpackPathOf E configuration appName options = JStr p ->
  require E (join E (cwd E) p) = Return loaded ->
  exists configFileName,
    runBuild E inputs options watchMode isDebugEnabled onSuccess =
    (preamble E options configFileName configuration appName tsConfig ++
       [RequireFile (join E (cwd E) p);
        WebpackCompilerRun configuration loaded
          (pathToTsconfigOf E configuration appName options) appName
          isDebugEnabled watchMode onSuccess],
     webpackCompiler_run E configuration loaded
       (pathToTsconfigOf E configuration appName options) appName
       isDebugEnabled watchMode onSuccess).
Proof.
  intros Hreach Hw Hco Hd Hp Hr.
  destruct (runBuild_reaches E inputs options watchMode isDebugEnabled
              onSuccess _ _ _ Hreach) as [file Hrun].
  exists file. rewrite Hrun. clear Hrun. unfold dispatch.
  rewrite Hw, bind_lift, Hco, bind_lift, Hd.
  fold (webpackPathOf E configuration appName options). rewrite Hp.
  unfold getWebpackConfigFactoryByPath. rewrite bind_lift. cbn [joinCwd].
  unfold tryCatch, call. rewrite Hr. cbn.
  now destruct (webpackCompiler_run _ _ _ _ _ _ _ _).
Qed.

(** X12.  The first call of a run is the load of the configuration, from
    the value of the first option named [config], and the configuration is
    not loaded a second time. *)
Theorem configuration_is_loaded_first_and_once ev rest :
  trace (runBuild E inputs options watchMode isDebugEnabled onSuccess) = ev :: rest ->
  exists configOption,
    find (fun option => name option =? "config") options = Some configOption /\
    ev = LoaderLoad (value configOption) /\
    existsb isLoaderLoad rest = false.
Proof.
  intros Ht.
  destruct (runBuild_path E inputs options watchMode isDebugEnabled onSuccess)
    as [ |c e' Hc Hl|c cfg Hc Hl Ha|c cfg a e' Hc Hl Ha Ht'
        |c cfg a ts e' Hc Hl Ha Ht' Hd|c cfg a ts e' Hc Hl Ha Ht' Hd Hp
        |c cfg app ts d Hc Hreach Hd];
    cbn [trace outcome fst snd preamble List.app] in Ht; try discriminate Ht;
    injection Ht as <- <-; exists c; repeat split; try assumption.
  cbn. destruct Hd; reflexivity.
Qed.

(** X15.  With webpack disabled, a run that got past cleanup and asset copy
    goes straight to the watch compiler (in watch mode) or to the one-shot
    compiler: nothing is required and [compilerOptions] is not read, so a
    configuration without that section builds. *)
Theorem run_without_webpack_reads_no_webpack_setting configuration appName
    tsConfig :
  reachesDispatch E inputs options configuration appName tsConfig ->
  truthy (isWebpackEnabledOf E configuration appName options) = false ->
  exists configFileName,
    runBuild E inputs options watchMode isDebugEnabled onSuccess =
    (preamble E options configFileName configuration appName tsConfig ++
       [if watchMode
        then WatchCompilerRun configuration
               (pathToTsconfigOf E configuration appName options) appName
               onSuccess
        else CompilerRun configuration
               (pathToTsconfigOf E configuration appName options) appName
               onSuccess],
     dropped
       (if watchMode
        then watchCompiler_run E configuration
               (pathToTsconfigOf E configuration appName options) appName
               onSuccess
        else compiler_run E configuration
               (pathToTsconfigOf E configuration appName options) appName
               onSuccess)).
Proof.
  intros Hreach Hw.
  destruct (runBuild_reaches E inputs options watchMode isDebugEnabled
              onSuccess _ _ _ Hreach) as [file Hrun].
  exists file. rewrite Hrun. clear Hrun. unfold dispatch. rewrite Hw.
  destruct watchMode; rewrite bind_call_dropped; reflexivity.
Qed.

End Coverage.

(** What [handle] adds to the calls of [runBuild] is a line on the console. *)
Lemma handle_trace E inputs options ev :
  In ev (trace (handle E inputs options)) ->
  In ev (trace (runBuild E inputs options (watchModeOf options) false None)) \/
  strategyOf ev = None /\ isRequire ev = false /\
  match ev with ConsoleLog _ | ConsoleError _ => True | _ => False end.
Proof.
  unfold handle.
  destruct (runBuild E inputs options (watchModeOf options) false None)
    as [t [v|[errName message|v]]]; cbn; rewrite ?app_nil_r; auto;
    intros Hin; apply in_app_or in Hin as [Hin|[<-|[]]]; auto.
Qed.

(** X5.  Through [handle], no compiler ever gets a completion callback, and
    the webpack compiler gets the debug flag off and the watch flag that
    [handle] computed from the options. *)
Theorem handle_passes_neither_callback_nor_debug E inputs options ev :
  In ev (trace (handle E inputs options)) ->
  match ev with
  | WebpackCompilerRun _ _ _ _ d w cb =>
      d = false /\ w = watchModeOf options /\ cb = None
  | WatchCompilerRun _ _ _ cb | CompilerRun _ _ _ cb => cb = None
  | _ => True
  end.
Proof.
  intros Hin. apply handle_trace in Hin as [Hin|(_ & _ & Hc)].
  - exact (run_hands_flags_on E inputs options _ _ _ ev Hin).
  - destruct ev; try contradiction; exact I.
Qed.

(** X13.  Without an option named [config], [handle] calls no collaborator:
    it prints the message of the [TypeError] after the error prefix, once,
    through [console.log], and returns. *)
Theorem handle_without_config_only_prints E inputs options :
  (forall o, In o options -> name o <> "config") ->
  exists message,
    typeErrorRead "value" JUndefined = ErrorInstance "TypeError" message /\
    handle E inputs options =
    ([ConsoleLog (newline ++ ERROR_PREFIX E ++ " " ++ message ++ newline)%string],
     Return tt).
Proof.
  intros Hmiss. apply find_name_none in Hmiss.
  eexists. split; [reflexivity|].
  unfold handle, runBuild. rewrite bind_lift, Hmiss. reflexivity.
Qed.

Lemma dispatch_ignores_debug E configuration appName pathToTsconfig
    isWebpackEnabled options watchMode onSuccess d1 d2 :
  ~ In Bundling
      (invoked
         (trace (dispatch E configuration appName pathToTsconfig
                   isWebpackEnabled options watchMode d1 onSuccess))) ->
  dispatch E configuration appName pathToTsconfig isWebpackEnabled options
    watchMode d1 onSuccess =
  dispatch E configuration appName pathToTsconfig isWebpackEnabled options
    watchMode d2 onSuccess.
Proof.
  unfold dispatch. destruct (truthy isWebpackEnabled); [|reflexivity].
  rewrite !bind_lift.
  destruct (getProp configuration "compilerOptions") as [co|e]; [|reflexivity].
  rewrite !bind_lift.
  destruct (getProp co "webpackConfigPath") as [dp|e]; [|reflexivity].
  destruct (getWebpackConfigFactoryByPath E _ dp) as [t [loaded|e]];
    [|reflexivity].
  cbn. intros H. exfalso. apply H. rewrite invoked_app.
  apply in_or_app. right. now left.
Qed.

(** X14.  The debug flag reaches nothing but the webpack compiler: two runs
    that differ only in [isDebugEnabled] are the same run (calls and
    outcome) unless the webpack compiler is invoked. *)
Theorem debug_flag_only_reaches_the_webpack_compiler E inputs options watchMode
    onSuccess d1 d2 :
  ~ In Bundling
      (invoked (trace (runBuild E inputs options watchMode d1 onSuccess))) ->
  runBuild E inputs options watchMode d1 onSuccess =
  runBuild E inputs options watchMode d2 onSuccess.
Proof.
  unfold runBuild. rewrite !bind_lift.
  destruct (find (fun option => name option =? "config") options) as [c|];
    cbn [valueOfFound]; [|reflexivity].
  cbv zeta. rewrite ?bind_call.
  destruct (loader_load E (value c)) as [cfg|e]; [|reflexivity].
  rewrite ?bind_lift.
  destruct (find (fun input => name input =? "app") inputs) as [a|];
    cbn [valueOfFound]; [|reflexivity].
  cbv zeta. rewrite ?bind_call.
  destruct (tsConfigProvider_getByConfigFilename E _) as [ts|e]; [|reflexivity].
  cbv zeta. rewrite ?bind_call.
  destruct (workspaceUtils_deleteOutDirIfEnabled E _ _ _) as [[]|e]; [|reflexivity].
  cbv zeta. rewrite ?bind_call.
  destruct (assetsManager_copyAssets E _ _ _) as [[]|e]; [|reflexivity].
  cbn [trace outcome fst snd invoked strategyOf]. intros H.
  now rewrite (dispatch_ignores_debug _ _ _ _ _ _ _ _ d1 d2 H).
Qed.

(** *** Concrete runs, continued *)

(** [strategy_call_is_the_last_call], at a concrete invocation. *)
Lemma strategy_call_is_the_last_call_witness :
  trace (runBuild (env plainConfiguration None) inputs options false false None)
  = preamble (env plainConfiguration None) options (JStr "nest-cli.json")
      plainConfiguration (JStr "api") (mkTsConfig None) ++
    CompilerRun plainConfiguration (JStr "tsconfig.build.json") (JStr "api") None
    :: [] /\
  @nil Event = [].
Proof.
  split; [reflexivity|].
  apply (strategy_call_is_the_last_call (env plainConfiguration None) inputs
           options false false None
           (preamble (env plainConfiguration None) options
              (JStr "nest-cli.json") plainConfiguration (JStr "api")
              (mkTsConfig None))
           (CompilerRun plainConfiguration (JStr "tsconfig.build.json")
              (JStr "api") None)
           []).
  - reflexivity.
  - discriminate.
Defined.

(** [outcome_is_the_answer_of_the_strategy], at a concrete invocation. *)
Lemma outcome_is_the_answer_of_the_strategy_witness :
  outcome
    (runBuild (envWithFailingCompiler plainConfiguration) inputs options false
       false None) = Throw compilationFailed.
Proof.
  apply (outcome_is_the_answer_of_the_strategy
           (envWithFailingCompiler plainConfiguration) inputs options false
           false None
           (CompilerRun plainConfiguration (JStr "tsconfig.build.json")
              (JStr "api") None)).
  - cbn. auto 10.
  - discriminate.
Defined.

(** [strategy_receives_the_resolved_values], at a concrete invocation. *)
Lemma strategy_receives_the_resolved_values_witness :
  exists configuration appName tsConfig,
    reachesDispatch (env plainConfiguration None) inputs options configuration
      appName tsConfig /\
    (plainConfiguration = configuration /\
     JStr "tsconfig.build.json" =
       pathToTsconfigOf (env plainConfiguration None) configuration appName
         options /\
     JStr "api" = appName /\ Some (callback 7) = Some (callback 7)).
Proof.
  apply (strategy_receives_the_resolved_values (env plainConfiguration None)
           inputs options true false (Some (callback 7))
           (WatchCompilerRun plainConfiguration (JStr "tsconfig.build.json")
              (JStr "api") (Some (callback 7)))).
  - cbn. auto 10.
  - discriminate.
Defined.

(** [handle_passes_neither_callback_nor_debug], at a concrete invocation. *)
Lemma handle_passes_neither_callback_nor_debug_witness :
  In (WebpackCompilerRun webpackConfiguration
        (WebpackFactory emptyConfigFactory) (JStr "tsconfig.build.json")
        (JStr "api") false true None)
    (trace (handle (env webpackConfiguration None) inputs watchOptions)) /\
  false = false /\ true = watchModeOf watchOptions /\ @None Callback = None.
Proof.
  assert (Hin :
            In (WebpackCompilerRun webpackConfiguration
                  (WebpackFactory emptyConfigFactory)
                  (JStr "tsconfig.build.json") (JStr "api") false true None)
              (trace (handle (env webpackConfiguration None) inputs watchOptions))).
  { cbn. auto 10. }
  split; [exact Hin|].
  exact (handle_passes_neither_callback_nor_debug
           (env webpackConfiguration None) inputs watchOptions _ Hin).
Defined.

(** [every_error_is_own_or_of_the_last_collaborator], at a concrete invocation. *)
Lemma every_error_is_own_or_of_the_last_collaborator_witness :
  ownTypeError moduleNotFound \/
  exists before ev,
    trace
      (runBuild (env webpackConfiguration None) inputs explicitPathOptions
         false false None) = before ++ [ev] /\
    collaboratorThrows (env webpackConfiguration None) ev moduleNotFound.
Proof.
  apply (every_error_is_own_or_of_the_last_collaborator
           (env webpackConfiguration None) inputs explicitPathOptions false
           false None moduleNotFound).
  reflexivity.
Defined.

(** [assets_are_copied_right_after_cleanup_returned], at a concrete invocation. *)
Lemma assets_are_copied_right_after_cleanup_returned_witness :
  workspaceUtils_deleteOutDirIfEnabled (env plainConfiguration None)
    plainConfiguration (JStr "api") "dist" = Return tt /\
  exists l1 l2,
    trace (runBuild (env plainConfiguration None) inputs options false false None)
    = l1 ++ DeleteOutDirIfEnabled plainConfiguration (JStr "api") "dist" ::
      CopyAssets plainConfiguration (JStr "api") "dist" :: l2.
Proof.
  apply (assets_are_copied_right_after_cleanup_returned
           (env plainConfiguration None) inputs options false false None
           plainConfiguration (JStr "api") "dist").
  cbn. auto 10.
Defined.

(** [cleanup_and_copy_get_the_same_arguments], at a concrete invocation. *)
Lemma cleanup_and_copy_get_the_same_arguments_witness :
  In (DeleteOutDirIfEnabled plainConfiguration (JStr "api") "dist")
    (trace (runBuild (env plainConfiguration None) inputs options false false None)) /\
  In (CopyAssets plainConfiguration (JStr "api") "dist")
    (trace (runBuild (env plainConfiguration None) inputs options false false None)) /\
  plainConfiguration = plainConfiguration /\ JStr "api" = JStr "api" /\
  "dist" = "dist".
Proof.
  assert (H1 :
            In (DeleteOutDirIfEnabled plainConfiguration (JStr "api") "dist")
              (trace (runBuild (env plainConfiguration None) inputs options
                        false false None))).
  { cbn. auto 10. }
  assert (H2 :
            In (CopyAssets plainConfiguration (JStr "api") "dist")
              (trace (runBuild (env plainConfiguration None) inputs options
                        false false None))).
  { cbn. auto 10. }
  split; [exact H1|]. split; [exact H2|].
  exact (cleanup_and_copy_get_the_same_arguments (env plainConfiguration None)
           inputs options false false None _ _ _ _ _ _ H1 H2).
Defined.

(** [require_is_called_on_the_resolved_path], at a concrete invocation. *)
Lemma require_is_called_on_the_resolved_path_witness :
  exists configuration appName tsConfig p,
    reachesDispatch (env webpackConfiguration None) inputs explicitPathOptions
      configuration appName tsConfig /\
    truthy (isWebpackEnabledOf (env webpackConfiguration None) configuration
              appName explicitPathOptions) = true /\
    webpackPathOf (env webpackConfiguration None) configuration appName
      explicitPathOptions = JStr p /\
    "/work/custom.webpack.js" =
      join (env webpackConfiguration None) (cwd (env webpackConfiguration None)) p.
Proof.
  apply (require_is_called_on_the_resolved_path (env webpackConfiguration None)
           inputs explicitPathOptions false false None
           "/work/custom.webpack.js").
  cbn. auto 10.
Defined.

(** [webpack_path_that_is_no_string_throws], at a concrete invocation. *)
Lemma webpack_path_that_is_no_string_throws_witness :
  outcome (runBuild (env webpackWithoutPath None) inputs options false false None)
    = Throw typeErrorPathArg /\
  existsb isRequire
    (trace (runBuild (env webpackWithoutPath None) inputs options false false None))
    = false /\
  invoked
    (trace (runBuild (env webpackWithoutPath None) inputs options false false None))
    = [].
Proof.
  apply (webpack_path_that_is_no_string_throws (env webpackWithoutPath None)
           inputs options false false None webpackWithoutPath (JStr "api")
           (mkTsConfig None) (JObj [("webpack", JBool true)]) JUndefined).
  - apply reaches_fixture. reflexivity.
  - reflexivity.
  - reflexivity.
  - reflexivity.
  - intros p. discriminate.
Defined.

(** The environment with a webpack file lets the run reach the dispatch. *)
Lemma reaches_fixture_with_file configuration :
  reachesDispatch (envWithWebpackFile configuration) inputs options
    configuration (JStr "api") (mkTsConfig None).
Proof.
  exists (mkInput "config" (JStr "nest-cli.json")), (mkInput "app" (JStr "api")).
  repeat split; reflexivity.
Defined.

(** [loaded_webpack_configuration_is_passed_unchanged], at a concrete invocation. *)
Lemma loaded_webpack_configuration_is_passed_unchanged_witness :
  exists configFileName,
    runBuild (envWithWebpackFile webpackConfiguration) inputs options false
      false None =
    (preamble (envWithWebpackFile webpackConfiguration) options configFileName
       webpackConfiguration (JStr "api") (mkTsConfig None) ++
       [RequireFile "/work/webpack.config.js";
        WebpackCompilerRun webpackConfiguration exportedConfiguration
          (JStr "tsconfig.build.json") (JStr "api") false false None],
     Return JUndefined).
Proof.
  apply (loaded_webpack_configuration_is_passed_unchanged
           (envWithWebpackFile webpackConfiguration) inputs options false false
           None webpackConfiguration (JStr "api") (mkTsConfig None)
           webpackCompilerOptions (JStr "webpack.config.js")
           "webpack.config.js" exportedConfiguration).
  - apply reaches_fixture_with_file.
  - reflexivity.
  - reflexivity.
  - reflexivity.
  - reflexivity.
  - reflexivity.
Defined.

(** [configuration_is_loaded_first_and_once], at a concrete invocation. *)
Lemma configuration_is_loaded_first_and_once_witness :
  exists configOption,
    find (fun option => name option =? "config") options = Some configOption /\
    LoaderLoad (JStr "nest-cli.json") = LoaderLoad (value configOption) /\
    existsb isLoaderLoad
      [GetByConfigFilename (JStr "tsconfig.build.json");
       DeleteOutDirIfEnabled plainConfiguration (JStr "api") "dist";
       CopyAssets plainConfiguration (JStr "api") "dist";
       CompilerRun plainConfiguration (JStr "tsconfig.build.json") (JStr "api")
         None] = false.
Proof.
  apply (configuration_is_loaded_first_and_once (env plainConfiguration None)
           inputs options false false None).
  reflexivity.
Defined.

(** [handle_without_config_only_prints], at a concrete invocation. *)
Lemma handle_without_config_only_prints_witness :
  exists message,
    typeErrorRead "value" JUndefined = ErrorInstance "TypeError" message /\
    handle (env plainConfiguration None) inputs [] =
    ([ConsoleLog
        (newline ++ ERROR_PREFIX (env plainConfiguration None) ++ " " ++
         message ++ newline)%string],
     Return tt).
Proof.
  apply (handle_without_config_only_prints (env plainConfiguration None) inputs []).
  intros o [].
Defined.

(** [debug_flag_only_reaches_the_webpack_compiler], at a concrete invocation. *)
Lemma debug_flag_only_reaches_the_webpack_compiler_witness :
  runBuild (env plainConfiguration None) inputs options true false None =
  runBuild (env plainConfiguration None) inputs options true true None.
Proof.
  apply (debug_flag_only_reaches_the_webpack_compiler
           (env plainConfiguration None) inputs options true None false true).
  cbn. intros [H|[]]. discriminate H.
Defined.


(** [run_without_webpack_reads_no_webpack_setting], at a concrete invocation. *)
Lemma run_without_webpack_reads_no_webpack_setting_witness :
  exists configFileName,
    runBuild (env bareConfiguration None) inputs options true false None =
    (preamble (env bareConfiguration None) options configFileName
       bareConfiguration (JStr "api") (mkTsConfig None) ++
       [WatchCompilerRun bareConfiguration JUndefined (JStr "api") None],
     Return JUndefined).
Proof.
  apply (run_without_webpack_reads_no_webpack_setting (env bareConfiguration None)
           inputs options true false None bareConfiguration (JStr "api")
           (mkTsConfig None)).
  - apply reaches_fixture. reflexivity.
  - reflexivity.
Defined.

End BuildActionCoverage.
